(** * RagFlow client: response interpretation, facade operations and the
      batch upload script

    A shallow embedding of [ragflow/utils.py], [ragflow/exceptions.py],
    [ragflow/client.py] and [upload_documents_with_parse.py].

    Python text is a [string] (the UTF-8 bytes of the text), decoded JSON is
    the inductive [json], a Python [dict] with string keys is an association
    list in insertion order, exceptions are values of [exn], and the effects
    of the client (HTTP calls, printing, directory access) are recorded in a
    trace threaded through a small state-and-error monad. *)

From Stdlib Require Import String Ascii List ZArith Bool Lia.
From Stdlib Require Import DecimalString.
Import ListNotations.
Open Scope string_scope.
Open Scope Z_scope.

Set Warnings "-register-all".

(** ** Decoded JSON values *)

(** What [json.loads] / [Response.json()] produce, and what the client puts
    in a request body.  [JInt] is a Python [int]; [JFloat m e] is the float
    written [m * 10^e] (the rounding of the literal to a binary float is not
    represented). *)
Inductive json : Type :=
| JNull
| JBool (b : bool)
| JInt (z : Z)
| JFloat (m e : Z)
| JString (s : string)
| JArray (items : list json)
| JObject (fields : list (string * json)).

Definition dict := list (string * json).

Module Dict.

(** [k in d] and [d[k]] *)
Fixpoint lookup (k : string) (d : dict) : option json :=
  match d with
  | [] => None
  | (k', v) :: d' => if String.eqb k k' then Some v else lookup k d'
  end.

Definition mem (k : string) (d : dict) : bool :=
  match lookup k d with Some _ => true | None => false end.

(** [d.get(k, default)] *)
Definition get (k : string) (default : json) (d : dict) : json :=
  match lookup k d with Some v => v | None => default end.

(** [d[k] = v]: an existing key keeps its position, a new key goes last *)
Fixpoint set (k : string) (v : json) (d : dict) : dict :=
  match d with
  | [] => [(k, v)]
  | (k', v') :: d' =>
      if String.eqb k k' then (k, v) :: d' else (k', v') :: set k v d'
  end.

(** [{k: v for k, v in d.items() if v is not None}] *)
Definition drop_none (d : dict) : dict :=
  filter (fun kv => match snd kv with JNull => false | _ => true end) d.

Definition keys (d : dict) : list string := map fst d.

End Dict.

(** ** Python operators on decoded values *)

(** [v == n] for an integer literal [n]: [True == 1] and [False == 0] hold
    in Python, a float equals the int of the same value, and every other
    type differs from an int. *)
Definition py_eq_int (v : json) (n : Z) : bool :=
  match v with
  | JInt z => Z.eqb z n
  | JBool b => Z.eqb (Z.b2z b) n
  | JFloat m e =>
      if Z.leb 0 e then Z.eqb (m * 10 ^ e) n else Z.eqb m (n * 10 ^ (- e))
  | _ => false
  end.

(** [v == s] for a string literal [s] *)
Definition py_eq_str (v : json) (s : string) : bool :=
  match v with
  | JString t => String.eqb t s
  | _ => false
  end.

(** [bool(v)] *)
Definition py_truthy (v : json) : bool :=
  match v with
  | JNull => false
  | JBool b => b
  | JInt z => negb (Z.eqb z 0)
  | JFloat m _ => negb (Z.eqb m 0)
  | JString s => negb (String.eqb s "")
  | JArray l => match l with [] => false | _ => true end
  | JObject d => match d with [] => false | _ => true end
  end.

(** [if s:] for an [Optional[str]] argument *)
Definition opt_truthy (o : option string) : bool :=
  match o with
  | Some s => negb (String.eqb s "")
  | None => false
  end.

(** [x or default] for an [Optional[str]] *)
Definition opt_or (o : option string) (default : option string) : option string :=
  if opt_truthy o then o else default.

Definition opt_json (o : option string) : json :=
  match o with Some s => JString s | None => JNull end.

(** ** String methods *)

Module Str.

Fixpoint mem_char (c : ascii) (chars : string) : bool :=
  match chars with
  | EmptyString => false
  | String c' rest => if Ascii.eqb c c' then true else mem_char c rest
  end.

(** [s.lstrip(chars)]: removes leading characters as long as they belong
    to the SET of characters [chars] *)
Fixpoint lstrip (chars : string) (s : string) : string :=
  match s with
  | EmptyString => EmptyString
  | String c rest => if mem_char c chars then lstrip chars rest else s
  end.

Fixpoint rev_acc (s acc : string) : string :=
  match s with
  | EmptyString => acc
  | String c rest => rev_acc rest (String c acc)
  end.

Definition rev (s : string) : string := rev_acc s EmptyString.

(** [s.rstrip(chars)] *)
Definition rstrip (chars : string) (s : string) : string :=
  rev (lstrip chars (rev s)).

(** The characters [str.strip()] removes, within ASCII: tab, line feed,
    vertical tab, form feed, carriage return, the separators FS, GS, RS,
    US, and the space. *)
Definition is_space (c : ascii) : bool :=
  let n := nat_of_ascii c in
  (Nat.leb 9 n && Nat.leb n 13) || (Nat.leb 28 n && Nat.leb n 32).

Fixpoint lstrip_ws (s : string) : string :=
  match s with
  | EmptyString => EmptyString
  | String c rest => if is_space c then lstrip_ws rest else s
  end.

(** [s.strip()] *)
Definition strip (s : string) : string :=
  rev (lstrip_ws (rev (lstrip_ws s))).

(** [s.startswith(p)] and the removal of a literal prefix
    ([s.removeprefix(p)]) *)
Fixpoint remove_prefix (p s : string) : option string :=
  match p with
  | EmptyString => Some s
  | String a p' =>
      match s with
      | EmptyString => None
      | String b s' => if Ascii.eqb a b then remove_prefix p' s' else None
      end
  end.

Definition startswith (p s : string) : bool :=
  match remove_prefix p s with Some _ => true | None => false end.

(** [sub in s] *)
Fixpoint contains (sub s : string) : bool :=
  if startswith sub s then true
  else match s with
       | EmptyString => false
       | String _ rest => contains sub rest
       end.

Definition is_empty (s : string) : bool :=
  match s with EmptyString => true | _ => false end.

(** the double quote, for spelling JSON text *)
Definition dq : string := String (ascii_of_nat 34) EmptyString.

End Str.

(** ** Formatted text *)

(** The result of an f-string: literal pieces and [str(v)] of interpolated
    values.  [str] of a string, of [None], of a bool and of an int is
    spelled out; [str] of a float, of a list or of a dict stays symbolic, and
    so does the message the interpreter gives to a built-in exception. *)
Inductive piece : Type :=
| Lit (s : string)
| StrOf (v : json)
| InterpreterMessage.

Definition text := list piece.

Definition py_str (v : json) : piece :=
  match v with
  | JString s => Lit s
  | JNull => Lit "None"
  | JBool true => Lit "True"
  | JBool false => Lit "False"
  | JInt z => Lit (NilZero.string_of_int (Z.to_int z))
  | _ => StrOf v
  end.

(** ** Exceptions ([ragflow/exceptions.py] and the built-in ones the code
       meets) *)

Inductive exn_class : Type :=
| AuthenticationError
| APIError
| ValidationError
| ResourceNotFoundError
| AttributeError
| TypeError
| KeyError
| IndexError
| FileNotFoundError
| NotADirectoryError
| PydanticValidationError.

Definition exn_class_eqb (a b : exn_class) : bool :=
  match a, b with
  | AuthenticationError, AuthenticationError
  | APIError, APIError
  | ValidationError, ValidationError
  | ResourceNotFoundError, ResourceNotFoundError
  | AttributeError, AttributeError
  | TypeError, TypeError
  | KeyError, KeyError
  | IndexError, IndexError
  | FileNotFoundError, FileNotFoundError
  | NotADirectoryError, NotADirectoryError
  | PydanticValidationError, PydanticValidationError => true
  | _, _ => false
  end.

(** [RagFlowError.__init__(message)]: the argument is stored as given, so
    it is either a decoded value taken from a response ([data.get(...)]) or
    a formatted text. *)
Inductive exn_arg : Type :=
| ArgValue (v : json)
| ArgText (t : text)
| ArgBuiltin.

Record exn : Type := mk_exn { exn_kind : exn_class; exn_message : exn_arg }.

(** [str(e)] *)
Definition exn_str (e : exn) : text :=
  match exn_message e with
  | ArgValue v => [py_str v]
  | ArgText t => t
  | ArgBuiltin => [InterpreterMessage]
  end.

(** An exception carries [v] when [v] is its message or is interpolated in
    its message. *)
Definition carries (e : exn) (v : json) : Prop :=
  In (py_str v) (exn_str e).

(** an exception the interpreter raises itself *)
Definition builtin (c : exn_class) : exn := mk_exn c ArgBuiltin.

Inductive outcome (A : Type) : Type :=
| Ok (a : A)
| Raise (e : exn).
Arguments Ok {A} a.
Arguments Raise {A} e.

Definition obind {A B : Type} (o : outcome A) (k : A -> outcome B) : outcome B :=
  match o with
  | Ok a => k a
  | Raise e => Raise e
  end.

Notation "'let!' x ':=' o 'in' k" := (obind o (fun x => k))
  (at level 10, x name, o at level 100, k at level 200).

(** [v.get(k, default)]: only a dict has the method *)
Definition py_get (v : json) (k : string) (default : json) : outcome json :=
  match v with
  | JObject d => Ok (Dict.get k default d)
  | _ => Raise (builtin AttributeError)
  end.

(** [k in v]: key membership in a dict, element membership in a list,
    substring test in a string, [TypeError] for the other values *)
Definition py_contains (k : string) (v : json) : outcome bool :=
  match v with
  | JObject d => Ok (Dict.mem k d)
  | JArray l => Ok (existsb (fun x => py_eq_str x k) l)
  | JString s => Ok (Str.contains k s)
  | _ => Raise (builtin TypeError)
  end.

(** ** [ragflow/utils.py] *)

(** [handle_response]: an envelope with a [code] field is unwrapped or
    turned into an [APIError]; a response without one is returned as is. *)
Definition handle_response (response : json) : outcome json :=
  let! has_code := py_contains "code" response in
  if has_code then
    let! code := py_get response "code" JNull in
    if negb (py_eq_int code 0) then
      let! message := py_get response "message" (JString "未知错误") in
      Raise (mk_exn APIError
               (ArgText [Lit "API请求失败，错误信息："; py_str message]))
    else
      let! data := py_get response "data" JNull in
      match data with
      | JNull => Ok response
      | _ => Ok data
      end
  else Ok response.

(** ** [ragflow/models.py] *)

Module models.

Record Dataset : Type := mk_Dataset {
  ds_id : string;
  ds_name : string;
  ds_avatar : option string;
  ds_description : option string;
  ds_embedding_model : string;
  ds_chunk_method : string;
  ds_parser_config : dict;
  ds_permission : string;
  ds_create_date : string;
  ds_update_date : string;
  ds_chunk_count : Z;
  ds_document_count : Z;
  ds_token_num : Z;
  ds_status : string }.

Record Document : Type := mk_Document {
  doc_id : string;
  doc_name : string;
  doc_dataset_id : string;
  doc_location : string;
  doc_size : Z;
  doc_type : string;
  doc_chunk_method : string;
  doc_parser_config : dict;
  doc_run : string;
  doc_created_by : string }.

Record Chunk : Type := mk_Chunk {
  ck_id : string;
  ck_dataset_id : string;
  ck_document_id : string;
  ck_content : string;
  ck_chunk_token_count : Z;
  ck_delimiter : string;
  ck_create_time : Z;
  ck_update_time : Z }.

Record CompletionTokensDetails : Type := mk_CompletionTokensDetails {
  accepted_prediction_tokens : Z;
  reasoning_tokens : Z;
  rejected_prediction_tokens : Z }.

Record ChatCompletionUsage : Type := mk_ChatCompletionUsage {
  completion_tokens : Z;
  completion_tokens_details : CompletionTokensDetails }.

Record ChatCompletionResponse : Type := mk_ChatCompletionResponse {
  cc_id : string;
  cc_choices : list json;
  cc_created : Z;
  cc_model : string;
  cc_object : string;
  cc_usage : ChatCompletionUsage }.

End models.

(** ** Values a facade method returns *)

Inductive pyvalue : Type :=
| PNone
| PJson (v : json)
| PDataset (d : models.Dataset)
| PDocument (d : models.Document)
| PChunk (c : models.Chunk)
| PChatCompletion (r : models.ChatCompletionResponse)
| PList (l : list pyvalue).

(** ** HTTP calls and responses *)

(** an open binary file, known by its [name] *)
Definition file_obj := string.

Inductive files_arg : Type :=
| NoFiles
| FilesDict (d : list (string * file_obj))
| FilesList (l : list (string * (string * file_obj))).

Definition headers := list (string * string).

(** A call into the [requests] library with the arguments the client gives
    it: through the session (whose default headers then apply) or through
    the module-level [requests.request]. *)
Record http_call : Type := mk_call {
  via_session : option headers;
  call_method : string;
  call_url : string;
  call_params : option dict;
  call_json : option dict;
  call_files : files_arg;
  call_headers : option headers;
  call_stream : bool }.

(** [requests.Response]: the status, the body text, and what [iter_lines()]
    and [iter_content()] yield when the body is consumed as a stream (the
    lines already decoded from UTF-8). *)
Record response : Type := mk_response {
  status_code : Z;
  resp_text : string;
  iter_lines : list string;
  iter_content : list string }.

(** what [_request] returns: the decoded body, or the raw response when
    streaming *)
Inductive request_result : Type :=
| Decoded (data : json)
| RawResponse (r : response).

(** ** The environment of the client *)

(** The libraries and the outside world the code calls into.  [json_loads]
    is [json.loads] and [Response.json()], [None] standing for
    [JSONDecodeError]; [http] is the answer of the server to a call given the
    calls made before; the [validate_*] functions are the pydantic
    constructors [Model( **fields )], [None] standing for pydantic's
    validation error. *)
Record platform : Type := mk_platform {
  json_loads : string -> option json;
  urljoin : string -> string -> string;
  getenv : string -> option string;
  http : list http_call -> http_call -> response;
  validate_Dataset : dict -> option models.Dataset;
  validate_Chunk : dict -> option models.Chunk;
  validate_ChatCompletionResponse : dict -> option models.ChatCompletionResponse;
  path_exists : string -> bool;
  path_isdir : string -> bool;
  path_isfile : string -> bool;
  listdir : string -> list string;
  path_join : string -> string -> string;
  path_splitext : string -> string * string;
  path_basename : string -> string;
  str_lower : string -> string }.

(** ** Effects *)

Inductive event : Type :=
| EPrint (t : text)
| EHttp (c : http_call)
| EListDir (dir : string)
| EOpen (path : string)
| EClose (path : string)
| EWrite (chunk : string).

Definition trace := list event.

Fixpoint calls_of (tr : trace) : list http_call :=
  match tr with
  | [] => []
  | EHttp c :: tr' => c :: calls_of tr'
  | _ :: tr' => calls_of tr'
  end.

(** A computation reads and extends the trace and ends with a value or an
    exception. *)
Definition M (A : Type) : Type := trace -> outcome A * trace.

Definition ret {A : Type} (a : A) : M A := fun tr => (Ok a, tr).

Definition raise {A : Type} (e : exn) : M A := fun tr => (Raise e, tr).

Definition bind {A B : Type} (m : M A) (k : A -> M B) : M B :=
  fun tr =>
    match m tr with
    | (Ok a, tr') => k a tr'
    | (Raise e, tr') => (Raise e, tr')
    end.

Definition lift {A : Type} (o : outcome A) : M A := fun tr => (o, tr).

Definition emit (ev : event) : M unit := fun tr => (Ok tt, (tr ++ [ev])%list).

Definition print (t : text) : M unit := emit (EPrint t).

(** [try: m  except (classes) as e: handler e] *)
Definition try_except {A : Type} (m : M A) (catches : exn_class -> bool)
    (handler : exn -> M A) : M A :=
  fun tr =>
    match m tr with
    | (Ok a, tr') => (Ok a, tr')
    | (Raise e, tr') =>
        if catches (exn_kind e) then handler e tr' else (Raise e, tr')
    end.

Notation "x <- m ;; k" := (bind m (fun x => k))
  (at level 61, m at next level, right associativity).
Notation "m ;;; k" := (bind m (fun _ => k))
  (at level 61, right associativity).

(** [for x in xs: body x] *)
Fixpoint for_each {A : Type} (xs : list A) (body : A -> M unit) : M unit :=
  match xs with
  | [] => ret tt
  | x :: xs' => body x ;;; for_each xs' body
  end.

(** [bool(d)], [bool(l)] for optional containers *)
Definition opt_nonempty {A : Type} (o : option (list A)) : bool :=
  match o with
  | Some (_ :: _) => true
  | _ => false
  end.

(** every item in turn, stopping at the first exception *)
Fixpoint map_outcome {A B : Type} (f : A -> outcome B) (xs : list A)
  : outcome (list B) :=
  match xs with
  | [] => Ok []
  | x :: xs' =>
      let! y := f x in
      let! ys := map_outcome f xs' in
      Ok (y :: ys)
  end.

Fixpoint chars (s : string) : list json :=
  match s with
  | EmptyString => []
  | String c rest => JString (String c EmptyString) :: chars rest
  end.

(** [for item in v]: the items of a list, the keys of a dict, the characters
    of a string *)
Definition py_iter (v : json) : outcome (list json) :=
  match v with
  | JArray l => Ok l
  | JObject d => Ok (map JString (Dict.keys d))
  | JString s => Ok (chars s)
  | _ => Raise (builtin TypeError)
  end.

(** [Model( **v )]: [v] has to be a mapping, and pydantic has to accept it *)
Definition construct {A : Type} (validate : dict -> option A)
    (wrap : A -> pyvalue) (v : json) : outcome pyvalue :=
  match v with
  | JObject d =>
      match validate d with
      | Some x => Ok (wrap x)
      | None => Raise (builtin PydanticValidationError)
      end
  | _ => Raise (builtin TypeError)
  end.

(** ** [ragflow/client.py] *)

Record RagFlowClient : Type := mk_client {
  api_key : string;
  base_url : string;
  session_headers : headers }.

Section Client.

Variable P : platform.

(** the call is recorded, and the server answers knowing the calls made
    so far *)
Definition response_to (tr : trace) (c : http_call) : response :=
  http P (calls_of tr) c.

Definition send (c : http_call) : M response :=
  fun tr => (Ok (response_to tr c), (tr ++ [EHttp c])%list).

(** [utils.get_base_url] *)
Definition get_base_url : string :=
  match getenv P "RAGFLOW_API_URL" with
  | Some u => u
  | None => "http://120.224.107.249:22280"
  end.

(** [utils.join_url] *)
Definition join_url (base path : string) : string :=
  urljoin P (Str.rstrip "/" base ++ "/") (Str.lstrip "/" path).

(** [RagFlowClient.__init__]; the session headers are the two the client
    sets. *)
Definition RagFlowClient_init (key url : option string)
  : outcome RagFlowClient :=
  let key' := if opt_truthy key then key else getenv P "RAGFLOW_API_KEY" in
  match key' with
  | Some k =>
      if opt_truthy key' then
        Ok {| api_key := k;
              base_url := match url with
                          | Some u => if opt_truthy url then u else get_base_url
                          | None => get_base_url
                          end;
              session_headers :=
                [("Authorization", "Bearer " ++ k);
                 ("Content-Type", "application/json")] |}
      else Raise (mk_exn AuthenticationError
                         (ArgText [Lit "API key is required"]))
  | None => Raise (mk_exn AuthenticationError
                          (ArgText [Lit "API key is required"]))
  end.

(** [headers.pop(name, None)] *)
Definition headers_pop (name : string) (h : headers) : headers :=
  filter (fun kv => negb (String.eqb (fst kv) name)) h.

(** the call [_request] makes: without [Content-Type] and as a multipart
    form when there are files, with the JSON body otherwise *)
Definition request_call (self : RagFlowClient) (method path : string)
    (params json_data : option dict)
    (files : option (list (string * file_obj))) (stream : bool)
  : http_call :=
  let url := join_url (base_url self) path in
  if opt_nonempty files then
    {| via_session := Some (session_headers self);
       call_method := method;
       call_url := url;
       call_params := params;
       call_json := None;
       call_files := match files with
                     | Some d => FilesDict d
                     | None => NoFiles
                     end;
       call_headers :=
         Some (headers_pop "Content-Type" (session_headers self));
       call_stream := stream |}
  else
    {| via_session := Some (session_headers self);
       call_method := method;
       call_url := url;
       call_params := params;
       call_json := json_data;
       call_files := NoFiles;
       call_headers := None;
       call_stream := stream |}.

(** what [_request] does with a response that is not streamed: the body
    is decoded first, the status is looked at next *)
Definition interpret (response : response) : outcome json :=
  match json_loads P (resp_text response) with
  | None =>
      Raise (mk_exn APIError
               (ArgText [Lit "Invalid JSON response: ";
                         Lit (resp_text response)]))
  | Some data =>
      if Z.leb 400 (status_code response) then
        if Z.eqb (status_code response) 401 then
          let! message := py_get data "message"
                            (JString "Authentication failed") in
          Raise (mk_exn AuthenticationError (ArgValue message))
        else if Z.eqb (status_code response) 404 then
          let! message := py_get data "message"
                            (JString "Resource not found") in
          Raise (mk_exn ResourceNotFoundError (ArgValue message))
        else
          let! message := py_get data "message" (JString "Unknown error") in
          Raise (mk_exn APIError
                   (ArgText [Lit "API request failed: "; py_str message]))
      else Ok data
  end.

(** [RagFlowClient._request] *)
Definition _request (self : RagFlowClient) (method path : string)
    (params json_data : option dict)
    (files : option (list (string * file_obj))) (stream : bool)
  : M request_result :=
  response <- send (request_call self method path params json_data files
                      stream) ;;
  if stream then ret (RawResponse response)
  else
    data <- lift (interpret response) ;;
    ret (Decoded data).

(** the decoded body of a non-streaming [_request]; the raw response is
    only returned when streaming (see [_request_decoded]) *)
Definition decoded (r : request_result) : outcome json :=
  match r with
  | Decoded data => Ok data
  | RawResponse _ => Raise (builtin TypeError)
  end.

(** *** Chat completion *)

(** one line of the stream: [None] when the line is skipped *)
Definition chunk_of_line (line : string) : option json :=
  if Str.is_empty line then None
  else
    let json_line := Str.strip (Str.lstrip "data: " line) in
    if Str.is_empty json_line then None
    else json_loads P json_line.

(** the loop over [response.iter_lines()], [chunks] being the list built
    so far *)
Fixpoint stream_chunks (lines : list string) (chunks : list json)
  : list json :=
  match lines with
  | [] => chunks
  | line :: rest =>
      match chunk_of_line line with
      | Some chunk => stream_chunks rest (chunks ++ [chunk])%list
      | None => stream_chunks rest chunks
      end
  end.

Definition chat_path (chat_id : string) : string :=
  "/api/v1/chats_openai/" ++ chat_id ++ "/chat/completions".

Definition chat_body (messages : list dict) (model : string)
    (stream : bool) : dict :=
  [("model", JString model);
   ("messages", JArray (map JObject messages));
   ("stream", JBool stream)].

(** [RagFlowClient.create_chat_completion] *)
Definition create_chat_completion (self : RagFlowClient) (chat_id : string)
    (messages : list dict) (model : string) (stream : bool) : M pyvalue :=
  let path := chat_path chat_id in
  let data := chat_body messages model stream in
  if stream then
    response <- _request self "POST" path None (Some data) None true ;;
    match response with
    | RawResponse r => ret (PJson (JArray (stream_chunks (iter_lines r) [])))
    | Decoded _ => raise (builtin AttributeError)
    end
  else
    response <- _request self "POST" path None (Some data) None false ;;
    parsed_data <-
      try_except
        (parsed <- lift (let! d := decoded response in handle_response d) ;;
         ret (Some parsed))
        (exn_class_eqb APIError)
        (fun e => print (Lit "API请求失败: " :: exn_str e) ;;; ret None) ;;
    match parsed_data with
    | None => ret PNone
    | Some parsed =>
        lift (construct (validate_ChatCompletionResponse P)
                        PChatCompletion parsed)
    end.

(** *** Datasets *)

Definition create_dataset_body (name : string)
    (embedding_model description : option string) (chunk_method : string)
    (parser_config : option dict) (permission : string) : dict :=
  [("name", JString name);
   ("embedding_model", opt_json embedding_model);
   ("description", opt_json description);
   ("chunk_method", JString chunk_method);
   ("parser_config",
     JObject (if opt_nonempty parser_config
              then match parser_config with Some c => c | None => [] end
              else []));
   ("permission", JString permission)].

(** [RagFlowClient.create_dataset]; the defaults of the source are
    [chunk_method = "naive"] and [permission = "me"] *)
Definition create_dataset (self : RagFlowClient) (name : string)
    (embedding_model description : option string) (chunk_method : string)
    (parser_config : option dict) (permission : string) : M pyvalue :=
  let path := "/api/v1/datasets" in
  let data := create_dataset_body name embedding_model description
                chunk_method parser_config permission in
  response <- _request self "POST" path None (Some data) None false ;;
  lift (let! d := decoded response in
        let! fields := handle_response d in
        construct (validate_Dataset P) PDataset fields).

Definition set_if_truthy (key : string) (value : option string) (d : dict)
  : dict :=
  match value with
  | Some s => if opt_truthy value then Dict.set key (JString s) d else d
  | None => d
  end.

Definition list_datasets_params (page page_size : Z) (orderby : string)
    (desc : bool) (name dataset_id : option string) : dict :=
  let params := [("page", JInt page); ("page_size", JInt page_size);
                 ("orderby", JString orderby); ("desc", JBool desc)] in
  let params := set_if_truthy "name" name params in
  set_if_truthy "id" dataset_id params.

(** [RagFlowClient.list_datasets] *)
Definition list_datasets (self : RagFlowClient) (page page_size : Z)
    (orderby : string) (desc : bool) (name dataset_id : option string)
  : M pyvalue :=
  let path := "/api/v1/datasets" in
  let params := list_datasets_params page page_size orderby desc name
                  dataset_id in
  response <- _request self "GET" path (Some params) None None false ;;
  lift (let! d := decoded response in
        let! unwrapped := handle_response d in
        let! items := py_iter unwrapped in
        let! datasets :=
          map_outcome (construct (validate_Dataset P) PDataset) items in
        Ok (PList datasets)).

(** [RagFlowClient.delete_datasets] *)
Definition delete_datasets (self : RagFlowClient) (dataset_ids : list string)
  : M pyvalue :=
  let path := "/api/v1/datasets" in
  let data := [("ids", JArray (map JString dataset_ids))] in
  _request self "DELETE" path None (Some data) None false ;;;
  ret PNone.

Definition update_dataset_body (name embedding_model chunk_method
    : option string) : dict :=
  let data := [] in
  let data := set_if_truthy "name" name data in
  let data := set_if_truthy "embedding_model" embedding_model data in
  set_if_truthy "chunk_method" chunk_method data.

(** [RagFlowClient.update_dataset] *)
Definition update_dataset (self : RagFlowClient) (dataset_id : string)
    (name embedding_model chunk_method : option string) : M pyvalue :=
  let path := "/api/v1/datasets/" ++ dataset_id in
  let data := update_dataset_body name embedding_model chunk_method in
  _request self "PUT" path None (Some data) None false ;;;
  ret PNone.

(** *** Documents *)

(** [RagFlowClient.upload_documents]: the call goes through
    [requests.request], not through [_request], and the body is
    interpreted here. *)
Definition upload_call (self : RagFlowClient) (dataset_id : string)
    (files : list file_obj) : http_call :=
  let path := "/api/v1/datasets/" ++ dataset_id ++ "/documents" in
  let url := join_url (base_url self) path in
  let headers := [("Authorization", "Bearer " ++ api_key self)] in
  let files_dict :=
    map (fun file => ("file", (path_basename P file, file))) files in
  {| via_session := None;
     call_method := "POST";
     call_url := url;
     call_params := None;
     call_json := None;
     call_files := FilesList files_dict;
     call_headers := Some headers;
     call_stream := false |}.

Definition upload_documents (self : RagFlowClient) (dataset_id : string)
    (files : list file_obj) : M pyvalue :=
  let call := upload_call self dataset_id files in
  print [Lit "[UPLOAD DEBUG] 上传文档到URL: "; Lit (call_url call)] ;;;
  print [Lit "[UPLOAD DEBUG] 文件参数: ";
         py_str (JArray (map (fun file => JString (path_basename P file))
                             files))] ;;;
  response <- send call ;;
  print [Lit "[UPLOAD DEBUG] 响应状态码: ";
         py_str (JInt (status_code response))] ;;;
  print [Lit "[UPLOAD DEBUG] 响应内容: "; Lit (resp_text response)] ;;;
  match json_loads P (resp_text response) with
  | None =>
      raise (mk_exn APIError
               (ArgText [Lit "Invalid JSON response: ";
                         Lit (resp_text response)]))
  | Some data =>
      if Z.leb 400 (status_code response) then
        message <- lift (py_get data "message" (JString "Unknown error")) ;;
        raise (mk_exn APIError
                 (ArgText [Lit "API request failed: "; py_str message]))
      else
        documents <- lift (py_get data "data" (JArray [])) ;;
        ret (PJson documents)
  end.

Definition set_if_nonempty (key : string) (value : option dict) (d : dict)
  : dict :=
  match value with
  | Some v => if opt_nonempty value then Dict.set key (JObject v) d else d
  | None => d
  end.

Definition update_document_body (name : option string)
    (meta_fields : option dict) (chunk_method : option string)
    (parser_config : option dict) : dict :=
  let data := [] in
  let data := set_if_truthy "name" name data in
  let data := set_if_nonempty "meta_fields" meta_fields data in
  let data := set_if_truthy "chunk_method" chunk_method data in
  set_if_nonempty "parser_config" parser_config data.

(** [RagFlowClient.update_document] *)
Definition update_document (self : RagFlowClient)
    (dataset_id document_id : string) (name : option string)
    (meta_fields : option dict) (chunk_method : option string)
    (parser_config : option dict) : M pyvalue :=
  let path := "/api/v1/datasets/" ++ dataset_id ++ "/documents/"
                ++ document_id in
  let data := update_document_body name meta_fields chunk_method
                parser_config in
  _request self "PUT" path None (Some data) None false ;;;
  ret PNone.

(** [RagFlowClient.download_document]; the writes to [output_file] are
    recorded in the trace *)
Definition download_document (self : RagFlowClient)
    (dataset_id document_id : string) : M pyvalue :=
  let path := "/api/v1/datasets/" ++ dataset_id ++ "/documents/"
                ++ document_id in
  response <- send {| via_session := Some (session_headers self);
                      call_method := "GET";
                      call_url := join_url (base_url self) path;
                      call_params := None;
                      call_json := None;
                      call_files := NoFiles;
                      call_headers := None;
                      call_stream := true |} ;;
  if Z.leb 400 (status_code response) then
    message <-
      match json_loads P (resp_text response) with
      | Some data =>
          m <- lift (py_get data "message" (JString "Unknown error")) ;;
          ret (py_str m)
      | None => ret (Lit (resp_text response))
      end ;;
    raise (mk_exn APIError
             (ArgText [Lit "Failed to download document: "; message]))
  else
    for_each (iter_content response) (fun chunk => emit (EWrite chunk)) ;;;
    ret PNone.

(** *** Chunks *)

Definition paging_params (page page_size : Z) (orderby : string)
    (desc : bool) : dict :=
  [("page", JInt page); ("page_size", JInt page_size);
   ("orderby", JString orderby); ("desc", JBool desc)].

(** [RagFlowClient.list_chunks]: the decoded response is returned as it
    is *)
Definition list_chunks (self : RagFlowClient)
    (dataset_id document_id : string) (page page_size : Z)
    (orderby : string) (desc : bool) : M pyvalue :=
  let path := "/api/v1/datasets/" ++ dataset_id ++ "/documents/"
                ++ document_id ++ "/chunks" in
  let params := paging_params page page_size orderby desc in
  response <- _request self "GET" path (Some params) None None false ;;
  lift (let! d := decoded response in Ok (PJson d)).

Definition opt_ids (ids : option (list string)) : json :=
  match ids with
  | Some l => JArray (map JString l)
  | None => JNull
  end.

Definition retrieve_chunks_body (question : string)
    (dataset_ids document_ids : option (list string)) (page page_size : Z)
    (similarity_threshold vector_similarity_weight : Z * Z) (top_k : Z)
    (rerank_id : option string) (keyword highlight : bool) : dict :=
  let data :=
    [("question", JString question);
     ("dataset_ids", opt_ids dataset_ids);
     ("document_ids", opt_ids document_ids);
     ("page", JInt page);
     ("page_size", JInt page_size);
     ("similarity_threshold",
       JFloat (fst similarity_threshold) (snd similarity_threshold));
     ("vector_similarity_weight",
       JFloat (fst vector_similarity_weight) (snd vector_similarity_weight));
     ("top_k", JInt top_k);
     ("rerank_id", opt_json rerank_id);
     ("keyword", JBool keyword);
     ("highlight", JBool highlight)] in
  Dict.drop_none data.

(** [RagFlowClient.retrieve_chunks]; a float argument is given by its
    decimal mantissa and exponent (the defaults are [(2, -1)] and
    [(3, -1)]) *)
Definition retrieve_chunks (self : RagFlowClient) (question : string)
    (dataset_ids document_ids : option (list string)) (page page_size : Z)
    (similarity_threshold vector_similarity_weight : Z * Z) (top_k : Z)
    (rerank_id : option string) (keyword highlight : bool) : M pyvalue :=
  let path := "/api/v1/retrieval" in
  let data := retrieve_chunks_body question dataset_ids document_ids page
                page_size similarity_threshold vector_similarity_weight
                top_k rerank_id keyword highlight in
  response <- _request self "POST" path None (Some data) None false ;;
  lift (let! d := decoded response in
        let! unwrapped := handle_response d in
        Ok (PJson unwrapped)).

(** [RagFlowClient.get_chunk] *)
Definition get_chunk (self : RagFlowClient) (dataset_id chunk_id : string)
  : M pyvalue :=
  let path := "/api/v1/datasets/" ++ dataset_id ++ "/chunks/" ++ chunk_id in
  response <- _request self "GET" path None None None false ;;
  lift (let! d := decoded response in
        let! fields := handle_response d in
        construct (validate_Chunk P) PChunk fields).

Definition update_chunk_body (chunk_token_count : option Z)
    (delimiter : option string) : dict :=
  let data := [] in
  let data := match chunk_token_count with
              | Some n => Dict.set "chunk_token_count" (JInt n) data
              | None => data
              end in
  match delimiter with
  | Some s => Dict.set "delimiter" (JString s) data
  | None => data
  end.

(** [RagFlowClient.update_chunk] *)
Definition update_chunk (self : RagFlowClient) (dataset_id chunk_id : string)
    (chunk_token_count : option Z) (delimiter : option string) : M pyvalue :=
  let path := "/api/v1/datasets/" ++ dataset_id ++ "/chunks/" ++ chunk_id in
  let data := update_chunk_body chunk_token_count delimiter in
  _request self "PUT" path None (Some data) None false ;;;
  ret PNone.

(** [RagFlowClient.delete_chunk] *)
Definition delete_chunk (self : RagFlowClient) (dataset_id chunk_id : string)
  : M pyvalue :=
  let path := "/api/v1/datasets/" ++ dataset_id ++ "/chunks/" ++ chunk_id in
  _request self "DELETE" path None None None false ;;;
  ret PNone.

(** [RagFlowClient.parse_documents] *)
Definition parse_documents (self : RagFlowClient) (dataset_id : string)
    (document_ids : list json) : M pyvalue :=
  let path := "/api/v1/datasets/" ++ dataset_id ++ "/chunks" in
  let data := [("document_ids", JArray document_ids)] in
  response <- _request self "POST" path None (Some data) None false ;;
  lift (let! d := decoded response in
        let! unwrapped := handle_response d in
        Ok (PJson unwrapped)).

(** *** The facade as a whole *)

(** one constructor per public method of [RagFlowClient], with the
    arguments of the call *)
Inductive facade_call : Type :=
| CreateChatCompletion (chat_id : string) (messages : list dict)
    (model : string) (stream : bool)
| CreateDataset (name : string) (embedding_model description : option string)
    (chunk_method : string) (parser_config : option dict)
    (permission : string)
| ListDatasets (page page_size : Z) (orderby : string) (desc : bool)
    (name dataset_id : option string)
| DeleteDatasets (dataset_ids : list string)
| UpdateDataset (dataset_id : string)
    (name embedding_model chunk_method : option string)
| UploadDocuments (dataset_id : string) (files : list file_obj)
| UpdateDocument (dataset_id document_id : string) (name : option string)
    (meta_fields : option dict) (chunk_method : option string)
    (parser_config : option dict)
| DownloadDocument (dataset_id document_id : string)
| ListChunks (dataset_id document_id : string) (page page_size : Z)
    (orderby : string) (desc : bool)
| RetrieveChunks (question : string)
    (dataset_ids document_ids : option (list string)) (page page_size : Z)
    (similarity_threshold vector_similarity_weight : Z * Z) (top_k : Z)
    (rerank_id : option string) (keyword highlight : bool)
| GetChunk (dataset_id chunk_id : string)
| UpdateChunk (dataset_id chunk_id : string) (chunk_token_count : option Z)
    (delimiter : option string)
| DeleteChunk (dataset_id chunk_id : string)
| ParseDocuments (dataset_id : string) (document_ids : list json).

Definition run_call (self : RagFlowClient) (c : facade_call) : M pyvalue :=
  match c with
  | CreateChatCompletion chat_id messages model stream =>
      create_chat_completion self chat_id messages model stream
  | CreateDataset name em de cm pc pe =>
      create_dataset self name em de cm pc pe
  | ListDatasets page page_size orderby desc name dataset_id =>
      list_datasets self page page_size orderby desc name dataset_id
  | DeleteDatasets ids => delete_datasets self ids
  | UpdateDataset dataset_id name em cm =>
      update_dataset self dataset_id name em cm
  | UploadDocuments dataset_id files => upload_documents self dataset_id files
  | UpdateDocument dataset_id document_id name mf cm pc =>
      update_document self dataset_id document_id name mf cm pc
  | DownloadDocument dataset_id document_id =>
      download_document self dataset_id document_id
  | ListChunks dataset_id document_id page page_size orderby desc =>
      list_chunks self dataset_id document_id page page_size orderby desc
  | RetrieveChunks q ds docs page page_size st vw top_k rr kw hl =>
      retrieve_chunks self q ds docs page page_size st vw top_k rr kw hl
  | GetChunk dataset_id chunk_id => get_chunk self dataset_id chunk_id
  | UpdateChunk dataset_id chunk_id n d =>
      update_chunk self dataset_id chunk_id n d
  | DeleteChunk dataset_id chunk_id => delete_chunk self dataset_id chunk_id
  | ParseDocuments dataset_id ids => parse_documents self dataset_id ids
  end.

(** the methods that pass the decoded body to [handle_response] *)
Definition unwraps (c : facade_call) : bool :=
  match c with
  | CreateChatCompletion _ _ _ stream => negb stream
  | CreateDataset _ _ _ _ _ _
  | ListDatasets _ _ _ _ _ _
  | RetrieveChunks _ _ _ _ _ _ _ _ _ _ _
  | GetChunk _ _
  | ParseDocuments _ _ => true
  | _ => false
  end.

Definition is_chat_completion (c : facade_call) : bool :=
  match c with
  | CreateChatCompletion _ _ _ _ => true
  | _ => false
  end.

(** ** [upload_documents_with_parse.py] *)

Definition SUPPORTED_FILE_TYPES : list (string * list string) :=
  [("word", [".doc"; ".docx"]);
   ("pdf", [".pdf"]);
   ("excel", [".xls"; ".xlsx"]);
   ("markdown", [".md"]);
   ("txt", [".txt"])].

(** [any(ext in exts for exts in SUPPORTED_FILE_TYPES.values())] *)
Definition supported (ext : string) : bool :=
  existsb (fun entry => existsb (String.eqb ext) (snd entry))
          SUPPORTED_FILE_TYPES.

(** the loop over [os.listdir(doc_dir)], [file_paths] being the list
    built so far *)
Fixpoint scan (doc_dir : string) (filenames : list string)
    (file_paths : list string) : M (list string) :=
  match filenames with
  | [] => ret file_paths
  | filename :: rest =>
      let file_path := path_join P doc_dir filename in
      if path_isfile P file_path then
        let ext := str_lower P (snd (path_splitext P filename)) in
        if supported ext then scan doc_dir rest (file_paths ++ [file_path])%list
        else
          print [Lit "[WARN] 跳过不支持的文件类型: "; Lit filename] ;;;
          scan doc_dir rest file_paths
      else scan doc_dir rest file_paths
  end.

(** [with open(path, "rb") as f: body]: the file is closed on the way
    out, also when the body raises *)
Definition with_open {A : Type} (path : string) (body : file_obj -> M A)
  : M A :=
  fun tr =>
    match body path (tr ++ [EOpen path])%list with
    | (r, tr') => (r, (tr' ++ [EClose path])%list)
    end.

(** [docs[0]] *)
Definition py_first (v : json) : outcome json :=
  match v with
  | JArray (x :: _) => Ok x
  | JArray [] => Raise (builtin IndexError)
  | JString (String c _) => Ok (JString (String c EmptyString))
  | JString EmptyString => Raise (builtin IndexError)
  | JObject _ => Raise (builtin KeyError)
  | _ => Raise (builtin TypeError)
  end.

(** what [upload_documents] returned, as the script uses it: a decoded
    value (the method returns no other kind of value) *)
Definition raw (v : pyvalue) : outcome json :=
  match v with
  | PJson j => Ok j
  | _ => Raise (builtin AttributeError)
  end.

(** the upload loop, [uploaded_doc_ids] being the list built so far *)
Fixpoint upload_all (client : RagFlowClient) (dataset_id : string)
    (file_paths : list string) (uploaded_doc_ids : list json)
  : M (list json) :=
  match file_paths with
  | [] => ret uploaded_doc_ids
  | file_path :: rest =>
      ids <-
        with_open file_path (fun f =>
          print [Lit "[INFO] 开始上传文件: ";
                 Lit (path_basename P file_path)] ;;;
          result <- upload_documents client dataset_id [f] ;;
          docs <- lift (raw result) ;;
          if py_truthy docs then
            doc_id <- lift (let! first := py_first docs in
                            py_get first "id" JNull) ;;
            print [Lit "[INFO] 文件上传成功，文档ID: "; py_str doc_id] ;;;
            ret (uploaded_doc_ids ++ [doc_id])%list
          else
            print [Lit "[WARN] 文件上传未返回有效文档信息: ";
                   Lit file_path] ;;;
            ret uploaded_doc_ids) ;;
      upload_all client dataset_id rest ids
  end.

(** the first [except] clause of the script *)
Definition domain_error (c : exn_class) : bool :=
  match c with
  | APIError | ResourceNotFoundError | FileNotFoundError
  | NotADirectoryError => true
  | _ => false
  end.

(** step 1 of the script: the dataset looked up by name *)
Definition resolve_dataset (client : RagFlowClient) (dataset_name : string)
  : M string :=
  print [Lit "[INFO] 查找/创建数据集: "; Lit dataset_name] ;;;
  datasets <- list_datasets client 1 30 "create_time" true
                (Some dataset_name) None ;;
  match datasets with
  | PList [] =>
      print [Lit "[INFO] 未找到数据集: "; Lit dataset_name] ;;;
      raise (mk_exn ResourceNotFoundError
               (ArgText [Lit "数据集 "; Lit dataset_name; Lit " 不存在"]))
  | PList (PDataset dataset :: _) =>
      print [Lit "[INFO] 找到现有数据集，ID: ";
             Lit (models.ds_id dataset)] ;;;
      ret (models.ds_id dataset)
  | _ => raise (builtin AttributeError)
  end.

(** steps 2 to 4 of the script *)
Definition scan_upload_parse (client : RagFlowClient)
    (dataset_id doc_dir : string) : M unit :=
  print [Lit "[INFO] 扫描目录: "; Lit doc_dir] ;;;
  if negb (path_exists P doc_dir) then
    raise (mk_exn FileNotFoundError
             (ArgText [Lit "文档目录不存在: "; Lit doc_dir]))
  else if negb (path_isdir P doc_dir) then
    raise (mk_exn NotADirectoryError
             (ArgText [Lit "路径不是目录: "; Lit doc_dir]))
  else
    emit (EListDir doc_dir) ;;;
    file_paths <- scan doc_dir (listdir P doc_dir) [] ;;
    match file_paths with
    | [] => print [Lit "[INFO] 未找到需要上传的支持类型文件"]
    | _ =>
        print [Lit "[INFO] 准备上传文件: ";
               py_str (JArray (map (fun p => JString (path_basename P p))
                                   file_paths))] ;;;
        uploaded_doc_ids <- upload_all client dataset_id file_paths [] ;;
        match uploaded_doc_ids with
        | [] => print [Lit "[INFO] 无文件上传成功，跳过解析步骤"]
        | _ =>
            print [Lit "[INFO] 开始触发解析，文档数量: ";
                   py_str (JInt (Z.of_nat (length uploaded_doc_ids)))] ;;;
            result <- parse_documents client dataset_id uploaded_doc_ids ;;
            parse_result <- lift (raw result) ;;
            code <- lift (py_get parse_result "code" JNull) ;;
            if py_eq_int code 0 then
              print [Lit "[INFO] 解析请求提交成功，服务端响应: ";
                     py_str parse_result]
            else
              message <- lift (py_get parse_result "message" JNull) ;;
              print [Lit "[WARN] 解析请求提交失败，错误信息: ";
                     py_str message]
        end
    end.

(** [upload_and_parse_documents] *)
Definition upload_and_parse_documents (dataset_name doc_dir : string)
  : M unit :=
  try_except
    (client <- lift (RagFlowClient_init None None) ;;
     print [Lit "[INFO] 客户端初始化成功"] ;;;
     dataset_id <- resolve_dataset client dataset_name ;;
     scan_upload_parse client dataset_id doc_dir)
    (fun _ => true)
    (fun e =>
       (if domain_error (exn_kind e)
        then print (Lit "[ERROR] 执行过程中发生异常: " :: exn_str e)
        else print (Lit "[ERROR] 发生未知异常: " :: exn_str e)) ;;;
       raise e).

End Client.

(** ** A reader of JSON text *)

(** A [json_loads] to run the client on concrete responses: objects, arrays,
    strings with the one-character escapes, numbers and the three literals,
    with JSON white space between tokens.  A repeated key keeps its last
    value, as in [json.loads].  Escapes of the form [\uXXXX] are not
    decoded: such a text is rejected. *)
Module JsonText.

Definition quote : ascii := ascii_of_nat 34.
Definition backslash : ascii := ascii_of_nat 92.

Definition is_ws (c : ascii) : bool :=
  let n := nat_of_ascii c in
  Nat.eqb n 32 || Nat.eqb n 9 || Nat.eqb n 10 || Nat.eqb n 13.

Fixpoint skip_ws (s : string) : string :=
  match s with
  | String c rest => if is_ws c then skip_ws rest else s
  | EmptyString => s
  end.

Definition digit_of (c : ascii) : option Z :=
  let n := nat_of_ascii c in
  if Nat.leb 48 n && Nat.leb n 57 then Some (Z.of_nat (n - 48)) else None.

(** leading digits of [s]: their value on top of [acc], how many there
    are, and the rest *)
Fixpoint digits (s : string) (acc : Z) (count : nat) : Z * nat * string :=
  match s with
  | String c rest =>
      match digit_of c with
      | Some d => digits rest (acc * 10 + d) (S count)
      | None => (acc, count, s)
      end
  | EmptyString => (acc, count, s)
  end.

(** a JSON number: an optional minus sign, an integer part without a
    leading zero, an optional fraction and an optional exponent *)
Definition number (s : string) : option (json * string) :=
  let '(negative, s1) :=
    match s with
    | String "-" rest => (true, rest)
    | _ => (false, s)
    end in
  let sign := if negative then (-1) else 1 in
  let '(int_part, n_int, s2) := digits s1 0 0%nat in
  let leading_zero :=
    match s1 with String "0" _ => Nat.ltb 1 n_int | _ => false end in
  if Nat.eqb n_int 0 || leading_zero then None
  else
    let fraction :=
      match s2 with
      | String "." rest =>
          let '(m, n_frac, s3) := digits rest int_part 0%nat in
          if Nat.eqb n_frac 0 then None else Some (Some (m, n_frac), s3)
      | _ => Some (None, s2)
      end in
    match fraction with
    | None => None
    | Some (frac, s3) =>
        let exponent :=
          match s3 with
          | String c rest =>
              if Ascii.eqb c "e" || Ascii.eqb c "E" then
                let '(exp_sign, s4) :=
                  match rest with
                  | String "-" r => (-1, r)
                  | String "+" r => (1, r)
                  | _ => (1, rest)
                  end in
                let '(e, n_exp, s5) := digits s4 0 0%nat in
                if Nat.eqb n_exp 0 then None else Some (Some (exp_sign * e), s5)
              else Some (None, s3)
          | EmptyString => Some (None, s3)
          end in
        match exponent with
        | None => None
        | Some (None, s5) =>
            match frac with
            | None => Some (JInt (sign * int_part), s5)
            | Some (m, n_frac) =>
                Some (JFloat (sign * m) (- Z.of_nat n_frac), s5)
            end
        | Some (Some e, s5) =>
            match frac with
            | None => Some (JFloat (sign * int_part) e, s5)
            | Some (m, n_frac) =>
                Some (JFloat (sign * m) (e - Z.of_nat n_frac), s5)
            end
        end
    end.

Definition unescape (c : ascii) : option ascii :=
  if Ascii.eqb c quote then Some quote
  else if Ascii.eqb c backslash then Some backslash
  else if Ascii.eqb c "/" then Some "/"%char
  else if Ascii.eqb c "b" then Some (ascii_of_nat 8)
  else if Ascii.eqb c "f" then Some (ascii_of_nat 12)
  else if Ascii.eqb c "n" then Some (ascii_of_nat 10)
  else if Ascii.eqb c "r" then Some (ascii_of_nat 13)
  else if Ascii.eqb c "t" then Some (ascii_of_nat 9)
  else None.

(** the characters of a string after its opening quote, up to the closing
    one; [acc] holds the characters read so far, last one first *)
Fixpoint string_body (s : string) (acc : string) : option (string * string) :=
  match s with
  | EmptyString => None
  | String c rest =>
      if Ascii.eqb c quote then Some (Str.rev acc, rest)
      else if Ascii.eqb c backslash then
        match rest with
        | String e rest' =>
            match unescape e with
            | Some c' => string_body rest' (String c' acc)
            | None => None
            end
        | EmptyString => None
        end
      else if Nat.ltb (nat_of_ascii c) 32 then None
      else string_body rest (String c acc)
  end.

Fixpoint value (fuel : nat) (s : string) : option (json * string) :=
  match fuel with
  | O => None
  | S fuel' =>
      match skip_ws s with
      | EmptyString => None
      | String c rest =>
          if Ascii.eqb c "[" then
            match skip_ws rest with
            | String "]" rest' => Some (JArray [], rest')
            | _ =>
                match value fuel' rest with
                | Some (v, rest') =>
                    match elements fuel' rest' [v] with
                    | Some (l, rest'') => Some (JArray l, rest'')
                    | None => None
                    end
                | None => None
                end
            end
          else if Ascii.eqb c "{" then
            match skip_ws rest with
            | String "}" rest' => Some (JObject [], rest')
            | _ =>
                match members fuel' (String "," rest) [] with
                | Some (d, rest') => Some (JObject d, rest')
                | None => None
                end
            end
          else if Ascii.eqb c quote then
            match string_body rest EmptyString with
            | Some (str, rest') => Some (JString str, rest')
            | None => None
            end
          else
            match Str.remove_prefix "true" (String c rest) with
            | Some rest' => Some (JBool true, rest')
            | None =>
                match Str.remove_prefix "false" (String c rest) with
                | Some rest' => Some (JBool false, rest')
                | None =>
                    match Str.remove_prefix "null" (String c rest) with
                    | Some rest' => Some (JNull, rest')
                    | None => number (String c rest)
                    end
                end
            end
      end
  end

(** after an element of an array: a comma and the next element, or the
    closing bracket *)
with elements (fuel : nat) (s : string) (acc : list json)
  : option (list json * string) :=
  match fuel with
  | O => None
  | S fuel' =>
      match skip_ws s with
      | String "]" rest => Some (acc, rest)
      | String "," rest =>
          match value fuel' rest with
          | Some (v, rest') => elements fuel' rest' (acc ++ [v])%list
          | None => None
          end
      | _ => None
      end
  end

(** after a member of an object: a comma and the next member, or the
    closing brace *)
with members (fuel : nat) (s : string) (acc : dict)
  : option (dict * string) :=
  match fuel with
  | O => None
  | S fuel' =>
      match skip_ws s with
      | String "}" rest => Some (acc, rest)
      | String "," rest =>
          match skip_ws rest with
          | String c rest1 =>
              if Ascii.eqb c quote then
                match string_body rest1 EmptyString with
                | Some (key, rest2) =>
                    match skip_ws rest2 with
                    | String ":" rest3 =>
                        match value fuel' rest3 with
                        | Some (v, rest4) =>
                            members fuel' rest4 (Dict.set key v acc)
                        | None => None
                        end
                    | _ => None
                    end
                | None => None
                end
              else None
          | EmptyString => None
          end
      | _ => None
      end
  end.

Definition loads (s : string) : option json :=
  match value (S (String.length s)) s with
  | Some (v, rest) =>
      match skip_ws rest with
      | EmptyString => Some v
      | _ => None
      end
  | None => None
  end.

End JsonText.

(** ** A concrete environment *)

(** An environment to run the client in: the reader above for JSON text, a
    server given as a function, one API key in the process environment, a
    directory with its files, and validators that ask for the required
    fields of each model with their JSON types. *)
Module Demo.

Definition field_str (k : string) (d : dict) : option string :=
  match Dict.lookup k d with
  | Some (JString s) => Some s
  | _ => None
  end.

Definition field_int (k : string) (d : dict) : option Z :=
  match Dict.lookup k d with
  | Some (JInt z) => Some z
  | _ => None
  end.

Definition field_dict (k : string) (d : dict) : option dict :=
  match Dict.lookup k d with
  | Some (JObject o) => Some o
  | _ => None
  end.

Definition field_opt_str (k : string) (d : dict) : option (option string) :=
  match Dict.lookup k d with
  | Some (JString s) => Some (Some s)
  | Some JNull | None => Some None
  | _ => None
  end.

Notation "x <-? o ; k" :=
  (match o with Some x => k | None => None end)
  (at level 61, o at next level, right associativity).

Definition accept_Dataset (d : dict) : option models.Dataset :=
  id <-? field_str "id" d ;
  name <-? field_str "name" d ;
  avatar <-? field_opt_str "avatar" d ;
  description <-? field_opt_str "description" d ;
  embedding_model <-? field_str "embedding_model" d ;
  chunk_method <-? field_str "chunk_method" d ;
  parser_config <-? field_dict "parser_config" d ;
  create_date <-? field_str "create_date" d ;
  update_date <-? field_str "update_date" d ;
  chunk_count <-? field_int "chunk_count" d ;
  document_count <-? field_int "document_count" d ;
  token_num <-? field_int "token_num" d ;
  status <-? field_str "status" d ;
  Some (models.mk_Dataset id name avatar description embedding_model
          chunk_method parser_config
          (match field_str "permission" d with Some p => p | None => "me" end)
          create_date update_date chunk_count document_count token_num
          status).

Definition accept_Chunk (d : dict) : option models.Chunk :=
  id <-? field_str "id" d ;
  dataset_id <-? field_str "dataset_id" d ;
  document_id <-? field_str "document_id" d ;
  content <-? field_str "content" d ;
  chunk_token_count <-? field_int "chunk_token_count" d ;
  delimiter <-? field_str "delimiter" d ;
  create_time <-? field_int "create_time" d ;
  update_time <-? field_int "update_time" d ;
  Some (models.mk_Chunk id dataset_id document_id content chunk_token_count
          delimiter create_time update_time).

Definition accept_ChatCompletionResponse (d : dict)
  : option models.ChatCompletionResponse :=
  id <-? field_str "id" d ;
  choices <-? match Dict.lookup "choices" d with
              | Some (JArray l) => Some l
              | _ => None
              end ;
  created <-? field_int "created" d ;
  model <-? field_str "model" d ;
  object <-? field_str "object" d ;
  usage <-? field_dict "usage" d ;
  completion_tokens <-? field_int "completion_tokens" usage ;
  details <-? field_dict "completion_tokens_details" usage ;
  accepted <-? field_int "accepted_prediction_tokens" details ;
  reasoning <-? field_int "reasoning_tokens" details ;
  rejected <-? field_int "rejected_prediction_tokens" details ;
  Some (models.mk_ChatCompletionResponse id choices created model object
          (models.mk_ChatCompletionUsage completion_tokens
             (models.mk_CompletionTokensDetails accepted reasoning
                rejected))).

(** the part of [s] after its last slash; [acc] is the part read since
    the last slash, last character first *)
Fixpoint basename_from (s acc : string) : string :=
  match s with
  | EmptyString => Str.rev acc
  | String c rest =>
      if Ascii.eqb c "/" then basename_from rest EmptyString
      else basename_from rest (String c acc)
  end.

Definition basename (p : string) : string := basename_from p EmptyString.

(** the extension of a file name, read from its end; [acc] is the part
    read so far *)
Fixpoint ext_from (reversed acc : string) : string * string :=
  match reversed with
  | EmptyString => (Str.rev reversed ++ acc, EmptyString)
  | String c rest =>
      if Ascii.eqb c "." then
        if Str.is_empty (Str.lstrip "." rest) then
          (Str.rev reversed ++ acc, EmptyString)
        else (Str.rev rest, String c acc)
      else if Ascii.eqb c "/" then (Str.rev reversed ++ acc, EmptyString)
      else ext_from rest (String c acc)
  end.

Definition splitext (p : string) : string * string :=
  ext_from (Str.rev p) EmptyString.

Definition lower_char (c : ascii) : ascii :=
  let n := nat_of_ascii c in
  if Nat.leb 65 n && Nat.leb n 90 then ascii_of_nat (n + 32) else c.

Fixpoint lower (s : string) : string :=
  match s with
  | EmptyString => EmptyString
  | String c rest => String (lower_char c) (lower rest)
  end.

Definition join (dir name : string) : string :=
  if Str.startswith "/" name then name
  else if Str.is_empty dir || Str.startswith "/" (Str.rev dir) then dir ++ name
  else dir ++ "/" ++ name.

(** a server that answers every call alike *)
Definition always (status : Z) (body : string) (lines : list string)
  : list http_call -> http_call -> response :=
  fun _ _ => mk_response status body lines [].

Definition env (server : list http_call -> http_call -> response)
    (dir : string) (files : list string) : platform :=
  {| json_loads := JsonText.loads;
     urljoin := fun base rel => base ++ rel;
     getenv := fun name =>
                 if String.eqb name "RAGFLOW_API_KEY" then Some "secret"
                 else None;
     http := server;
     validate_Dataset := accept_Dataset;
     validate_Chunk := accept_Chunk;
     validate_ChatCompletionResponse := accept_ChatCompletionResponse;
     path_exists := fun p => String.eqb p dir
                             || existsb (fun f => String.eqb p (join dir f)) files;
     path_isdir := String.eqb dir;
     path_isfile := fun p => existsb (fun f => String.eqb p (join dir f)) files;
     listdir := fun p => if String.eqb p dir then files else [];
     path_join := join;
     path_splitext := splitext;
     path_basename := basename;
     str_lower := lower |}.

Definition client : RagFlowClient :=
  {| api_key := "secret";
     base_url := "http://ragflow.test";
     session_headers := [("Authorization", "Bearer secret");
                         ("Content-Type", "application/json")] |}.

(** spelling of JSON text: a quoted string, and a member of an object *)
Definition quoted (s : string) : string := Str.dq ++ s ++ Str.dq.

Definition member (key value : string) : string :=
  quoted key ++ ":" ++ value.

End Demo.

(** ** Reference readings of the documented behaviour *)

(** The stream reader as it is documented (the comment in
    [create_chat_completion]: remove the prefix [data: ] and parse the JSON):
    a blank line is skipped, the literal prefix is removed when the line
    starts with it, and the remainder is parsed; a line that does not parse
    is dropped. *)
Definition documented_chunk_of_line (loads : string -> option json)
    (line : string) : option json :=
  if Str.is_empty line then None
  else
    match Str.remove_prefix "data: " line with
    | Some remainder => loads remainder
    | None => loads line
    end.

Fixpoint documented_stream_chunks (loads : string -> option json)
    (lines : list string) : list json :=
  match lines with
  | [] => []
  | line :: rest =>
      match documented_chunk_of_line loads line with
      | Some chunk => chunk :: documented_stream_chunks loads rest
      | None => documented_stream_chunks loads rest
      end
  end.

(** a Python list whose items are all [models.Document] instances (the
    empty list is one, however it was made) *)
Definition is_document_list (v : pyvalue) : bool :=
  match v with
  | PList l =>
      forallb (fun x => match x with PDocument _ => true | _ => false end) l
  | PJson (JArray []) => true
  | _ => false
  end.

(** the events of [after] that come on top of [before] *)
Definition events_since (before after : trace) : trace :=
  skipn (length before) after.

(** the three ways an error gets out of a method that makes the call [hc]
    and ends with [result]: an error of the shared interpreter, an error of
    [handle_response] where the method [c] applies it, and an error status *)
Definition propagates (P : platform) (c : facade_call) (tr : trace)
    (hc : http_call) (result : outcome pyvalue) : Prop :=
  (forall e,
      via_session hc <> None -> call_stream hc = false ->
      interpret P (response_to P tr hc) = Raise e -> result = Raise e)
  /\ (forall data e,
         via_session hc <> None -> call_stream hc = false ->
         interpret P (response_to P tr hc) = Ok data ->
         unwraps c = true ->
         handle_response data = Raise e -> result = Raise e)
  /\ (400 <= status_code (response_to P tr hc) ->
      exists e, result = Raise e).

(** ** Concrete scenarios *)

Module Scenario.

Import Demo.

(** [{"message":"invalid key"}] *)
Definition error_body : string :=
  "{" ++ member "message" (quoted "invalid key") ++ "}".

(** a server that rejects the key with a JSON body *)
Definition unauthorized : platform :=
  env (always 401 error_body []) "docs" ["a.pdf"].

(** a gateway that answers 404 with an HTML page *)
Definition html_not_found : platform :=
  env (always 404 "<html>not found</html>" []) "docs" ["a.pdf"].

(** [{"code":0,"data":[{"id":"d1"}]}] *)
Definition uploaded_body : string :=
  "{" ++ member "code" "0" ++ ","
      ++ member "data" ("[{" ++ member "id" (quoted "d1") ++ "}]") ++ "}".

Definition accepting : platform :=
  env (always 200 uploaded_body []) "docs" ["a.pdf"; "b.exe"; "c.docx"].

(** [{"code":0,"data":[]}]: no dataset has the name *)
Definition no_dataset_body : string :=
  "{" ++ member "code" "0" ++ "," ++ member "data" "[]" ++ "}".

Definition no_dataset : platform :=
  env (always 200 no_dataset_body []) "docs" ["a.pdf"; "b.exe"; "c.docx"].

(** [{"code":102,"message":"chat not found"}] with status 200 *)
Definition failed_body : string :=
  "{" ++ member "code" "102" ++ ","
      ++ member "message" (quoted "chat not found") ++ "}".

Definition failing : platform :=
  env (always 200 failed_body []) "docs" [].

(** the stream of the specification: a chunk, a blank line, a line that
    is not JSON *)
Definition spec_lines : list string :=
  ["data: {" ++ member "id" (quoted "1") ++ "}"; ""; "garbage"].

Definition streaming (lines : list string) : platform :=
  env (always 200 "" lines) "docs" [].

End Scenario.

(** ** Readings of the trace and of the script *)

(** the file names the scan of the script keeps: regular files whose
    extension, in lower case, is one of the supported ones *)
Definition selected (P : platform) (doc_dir filename : string) : bool :=
  path_isfile P (path_join P doc_dir filename)
  && supported (str_lower P (snd (path_splitext P filename))).

(** files opened minus files closed *)
Fixpoint open_balance (tr : trace) : Z :=
  match tr with
  | [] => 0
  | EOpen _ :: tr' => 1 + open_balance tr'
  | EClose _ :: tr' => open_balance tr' - 1
  | _ :: tr' => open_balance tr'
  end.

(** an event that is a print or a call *)
Definition quiet (ev : event) : bool :=
  match ev with
  | EPrint _ | EHttp _ => true
  | _ => false
  end.

(** the methods that send a body or a deletion and return [None] without
    looking into the decoded response *)
Definition returns_none (c : facade_call) : bool :=
  match c with
  | DeleteDatasets _
  | UpdateDataset _ _ _ _
  | UpdateDocument _ _ _ _ _ _
  | UpdateChunk _ _ _ _
  | DeleteChunk _ _ => true
  | _ => false
  end.

(** one round of the upload loop of the script: the body of [upload_all]
    for the file [file_path] *)
Definition upload_one (P : platform) (client : RagFlowClient)
    (dataset_id : string) (uploaded_doc_ids : list json) (file_path : string)
  : M (list json) :=
  with_open file_path (fun f =>
    print [Lit "[INFO] 开始上传文件: ";
           Lit (path_basename P file_path)] ;;;
    result <- upload_documents P client dataset_id [f] ;;
    docs <- lift (raw result) ;;
    if py_truthy docs then
      doc_id <- lift (let! first := py_first docs in
                      py_get first "id" JNull) ;;
      print [Lit "[INFO] 文件上传成功，文档ID: "; py_str doc_id] ;;;
      ret (uploaded_doc_ids ++ [doc_id])%list
    else
      print [Lit "[WARN] 文件上传未返回有效文档信息: ";
             Lit file_path] ;;;
      ret uploaded_doc_ids).

(** what the script does once the client exists and the dataset is found,
    with the two [except] clauses around it *)
Definition guarded (m : M unit) : M unit :=
  try_except m (fun _ => true)
    (fun e =>
       (if domain_error (exn_kind e)
        then print (Lit "[ERROR] 执行过程中发生异常: " :: exn_str e)
        else print (Lit "[ERROR] 发生未知异常: " :: exn_str e)) ;;;
       raise e).

(** the kind of value each method returns when it returns: a typed model,
    a list of them, plain decoded JSON, or [None] *)
Definition result_kind (c : facade_call) (v : pyvalue) : bool :=
  match c, v with
  | CreateChatCompletion _ _ _ true, PJson (JArray _) => true
  | CreateChatCompletion _ _ _ false, PNone => true
  | CreateChatCompletion _ _ _ false, PChatCompletion _ => true
  | CreateDataset _ _ _ _ _ _, PDataset _ => true
  | ListDatasets _ _ _ _ _ _, PList l =>
      forallb (fun x => match x with PDataset _ => true | _ => false end) l
  | GetChunk _ _, PChunk _ => true
  | UploadDocuments _ _, PJson _ => true
  | ListChunks _ _ _ _ _ _, PJson _ => true
  | RetrieveChunks _ _ _ _ _ _ _ _ _ _ _, PJson _ => true
  | ParseDocuments _ _, PJson _ => true
  | DeleteDatasets _, PNone => true
  | UpdateDataset _ _ _ _, PNone => true
  | UpdateDocument _ _ _ _ _ _, PNone => true
  | DownloadDocument _ _, PNone => true
  | UpdateChunk _ _ _ _, PNone => true
  | DeleteChunk _ _, PNone => true
  | _, _ => false
  end.

(** a string made only of characters of the set [chars] *)
Fixpoint only_chars (chars s : string) : bool :=
  match s with
  | EmptyString => true
  | String c rest => Str.mem_char c chars && only_chars chars rest
  end.

(** more environments to run the script in *)
Module Cases.

Import Demo.

(** no API key in the process environment *)
Definition no_key : platform :=
  let base := env (always 200 "{}" []) "docs" ["a.pdf"] in
  {| json_loads := json_loads base;
     urljoin := urljoin base;
     getenv := fun _ => None;
     http := http base;
     validate_Dataset := validate_Dataset base;
     validate_Chunk := validate_Chunk base;
     validate_ChatCompletionResponse := validate_ChatCompletionResponse base;
     path_exists := path_exists base;
     path_isdir := path_isdir base;
     path_isfile := path_isfile base;
     listdir := listdir base;
     path_join := path_join base;
     path_splitext := path_splitext base;
     path_basename := path_basename base;
     str_lower := str_lower base |}.

(** the JSON text of one dataset, as the server lists it *)
Definition dataset_text : string :=
  "{" ++ member "id" (quoted "ds1") ++ ","
      ++ member "name" (quoted "kb") ++ ","
      ++ member "embedding_model" (quoted "bge") ++ ","
      ++ member "chunk_method" (quoted "naive") ++ ","
      ++ member "parser_config" "{}" ++ ","
      ++ member "create_date" (quoted "Wed, 28 May 2025 14:30:33 GMT") ++ ","
      ++ member "update_date" (quoted "Wed, 28 May 2025 14:30:33 GMT") ++ ","
      ++ member "chunk_count" "0" ++ ","
      ++ member "document_count" "0" ++ ","
      ++ member "token_num" "0" ++ ","
      ++ member "status" (quoted "1") ++ "}".

(** [{"code":0,"data":[dataset]}] *)
Definition found_body : string :=
  "{" ++ member "code" "0" ++ ","
      ++ member "data" ("[" ++ dataset_text ++ "]") ++ "}".

(** the dataset exists and the directory holds the given files *)
Definition found (files : list string) : platform :=
  env (always 200 found_body []) "docs" files.

(** a body that is valid JSON at status 200 although its envelope reports a
    failure *)
Definition soft_failure : platform :=
  env (always 200 Scenario.failed_body []) "docs" [].

(** a download of three pieces *)
Definition pieces : platform :=
  env (fun _ _ => mk_response 200 "" [] ["ab"; "cd"; "e"]) "docs" [].

End Cases.

(** * Properties *)

Open Scope list_scope.

(** ** Envelopes: [handle_response] *)

Lemma mem_lookup (k : string) (d : dict) :
  Dict.mem k d = true <-> exists v, Dict.lookup k d = Some v.
Proof.
  unfold Dict.mem. destruct (Dict.lookup k d) as [v|].
  - split; [intros _; now exists v | reflexivity].
  - split; [discriminate | intros [v H]; discriminate].
Qed.

Lemma get_lookup (k : string) (default v : json) (d : dict) :
  Dict.lookup k d = Some v -> Dict.get k default d = v.
Proof. unfold Dict.get. now intros ->. Qed.

Lemma get_absent (k : string) (default : json) (d : dict) :
  Dict.lookup k d = None -> Dict.get k default d = default.
Proof. unfold Dict.get. now intros ->. Qed.

(** on a mapping with a [code] field, [handle_response] comes down to the
    test on the code and the test on the data *)
Lemma handle_response_envelope (fields : dict) (code : json) :
  Dict.lookup "code" fields = Some code ->
  handle_response (JObject fields) =
    if py_eq_int code 0 then
      match Dict.get "data" JNull fields with
      | JNull => Ok (JObject fields)
      | _ => Ok (Dict.get "data" JNull fields)
      end
    else
      Raise (mk_exn APIError
               (ArgText [Lit "API请求失败，错误信息：";
                         py_str (Dict.get "message" (JString "未知错误") fields)])).
Proof.
  intros Hcode. unfold handle_response. simpl.
  unfold Dict.mem. rewrite Hcode. simpl.
  rewrite (get_lookup "code" JNull code fields Hcode).
  destruct (py_eq_int code 0); simpl; reflexivity.
Qed.

(** C2, as stated, fails: an envelope whose [data] field is present with the
    value [null] is returned whole, not unwrapped to [null]. *)
Lemma handle_response_null_data_returns_envelope :
  ~ (forall (fields : dict) (data : json),
       Dict.lookup "code" fields = Some (JInt 0) ->
       Dict.lookup "data" fields = Some data ->
       handle_response (JObject fields) = Ok data).
Proof.
  intros H.
  specialize (H [("code", JInt 0); ("data", JNull)] JNull eq_refl eq_refl).
  vm_compute in H. discriminate H.
Qed.

(** C2 (amended): for a mapping whose [code] field equals 0,
    [handle_response] returns the value of [data] when the field is present
    and is not [null], and returns the whole envelope unchanged when [data]
    is absent or [null]. *)
Theorem handle_response_unwraps_data :
  forall (fields : dict) (code : json),
    Dict.lookup "code" fields = Some code ->
    py_eq_int code 0 = true ->
    (forall data, Dict.lookup "data" fields = Some data -> data <> JNull ->
                  handle_response (JObject fields) = Ok data)
    /\ (Dict.lookup "data" fields = None \/
        Dict.lookup "data" fields = Some JNull ->
        handle_response (JObject fields) = Ok (JObject fields)).
Proof.
  intros fields code Hcode Hzero.
  rewrite (handle_response_envelope fields code Hcode), Hzero.
  split.
  - intros data Hdata Hnot.
    rewrite (get_lookup "data" JNull data fields Hdata).
    destruct data; try reflexivity. now elim Hnot.
  - intros [Habsent | Hnull].
    + now rewrite (get_absent "data" JNull fields Habsent).
    + now rewrite (get_lookup "data" JNull JNull fields Hnull).
Qed.

Lemma handle_response_unwraps_data_witness :
  handle_response
    (JObject [("code", JInt 0); ("data", JArray [JString "d1"])]) =
  Ok (JArray [JString "d1"])
  /\ handle_response (JObject [("code", JInt 0); ("message", JString "ok")]) =
     Ok (JObject [("code", JInt 0); ("message", JString "ok")]).
Proof.
  split.
  - apply (proj1 (handle_response_unwraps_data
                    [("code", JInt 0); ("data", JArray [JString "d1"])]
                    (JInt 0) eq_refl eq_refl)
                 (JArray [JString "d1"]) eq_refl).
    discriminate.
  - apply (proj2 (handle_response_unwraps_data
                    [("code", JInt 0); ("message", JString "ok")]
                    (JInt 0) eq_refl eq_refl)).
    left. reflexivity.
Defined.

(** C3: for a mapping whose [code] field is present and differs from 0,
    [handle_response] raises [APIError] with the envelope's [message] (or the
    default text when there is none); the function takes the decoded mapping
    alone, so the HTTP status plays no part; a mapping without a [code] field
    is returned unchanged. *)
Theorem handle_response_nonzero_code_raises :
  forall fields : dict,
    (forall code,
        Dict.lookup "code" fields = Some code ->
        py_eq_int code 0 = false ->
        exists e,
          handle_response (JObject fields) = Raise e
          /\ exn_kind e = APIError
          /\ exn_message e =
               ArgText [Lit "API请求失败，错误信息：";
                        py_str (Dict.get "message" (JString "未知错误") fields)]
          /\ (forall message,
                 Dict.lookup "message" fields = Some message ->
                 carries e message))
    /\ (Dict.lookup "code" fields = None ->
        handle_response (JObject fields) = Ok (JObject fields)).
Proof.
  intros fields. split.
  - intros code Hcode Hnonzero.
    rewrite (handle_response_envelope fields code Hcode), Hnonzero.
    eexists. split; [reflexivity |]. split; [reflexivity |].
    split; [reflexivity |].
    intros message Hmessage. unfold carries, exn_str. simpl.
    rewrite (get_lookup "message" _ message fields Hmessage). auto.
  - intros Habsent. unfold handle_response. simpl.
    unfold Dict.mem. now rewrite Habsent.
Qed.

Lemma handle_response_nonzero_code_raises_witness :
  (exists e,
      handle_response
        (JObject [("code", JInt 102); ("message", JString "no such chat")]) =
      Raise e
      /\ exn_kind e = APIError
      /\ exn_message e =
           ArgText [Lit "API请求失败，错误信息："; Lit "no such chat"]
      /\ (forall message,
             Dict.lookup "message"
               [("code", JInt 102); ("message", JString "no such chat")] =
             Some message ->
             carries e message))
  /\ handle_response (JObject [("id", JString "chatcmpl-1")]) =
     Ok (JObject [("id", JString "chatcmpl-1")]).
Proof.
  split.
  - apply (proj1 (handle_response_nonzero_code_raises
                    [("code", JInt 102); ("message", JString "no such chat")])
                 (JInt 102) eq_refl eq_refl).
  - apply (proj2 (handle_response_nonzero_code_raises
                    [("id", JString "chatcmpl-1")]) eq_refl).
Defined.

(** ** The trace *)

Lemma calls_of_app (a b : trace) :
  calls_of (a ++ b) = (calls_of a ++ calls_of b)%list.
Proof.
  induction a as [|ev a IH]; simpl; [reflexivity |].
  destruct ev; simpl; now rewrite IH.
Qed.

Lemma response_to_prints (P : platform) (tr : trace) (t1 t2 : text)
    (c : http_call) :
  response_to P (tr ++ [EPrint t1; EPrint t2]) c = response_to P tr c.
Proof.
  unfold response_to. rewrite calls_of_app. simpl. now rewrite app_nil_r.
Qed.

Lemma events_since_app (before new : trace) :
  events_since before (before ++ new) = new.
Proof.
  unfold events_since. induction before as [|ev before IH]; simpl; auto.
Qed.

(** ** The response interpreter: [_request] *)

(** a call that is not streamed records the call and interprets the
    response *)
Lemma request_run (P : platform) (self : RagFlowClient) (method path : string)
    (params json_data : option dict)
    (files : option (list (string * file_obj))) (tr : trace) :
  _request P self method path params json_data files false tr =
    (match interpret P (response_to P tr
                          (request_call P self method path params json_data
                             files false)) with
     | Ok data => Ok (Decoded data)
     | Raise e => Raise e
     end,
     (tr ++ [EHttp (request_call P self method path params json_data files
                      false)])%list).
Proof.
  unfold _request, bind, send, lift, ret. simpl.
  destruct (interpret P _); reflexivity.
Qed.

(** a call that is not streamed never returns the raw response *)
Lemma _request_decoded (P : platform) (self : RagFlowClient)
    (method path : string) (params json_data : option dict)
    (files : option (list (string * file_obj))) (tr : trace) (r : response) :
  fst (_request P self method path params json_data files false tr) <>
  Ok (RawResponse r).
Proof.
  rewrite request_run. simpl. destruct (interpret P _); discriminate.
Qed.

(** outside the mappings the interpreter is written for: a body that
    decodes to a JSON value other than an object has no [get], and the error
    branch ends in [AttributeError] *)
Lemma request_error_on_non_object (P : platform) (self : RagFlowClient)
    (method path : string) (params json_data : option dict)
    (files : option (list (string * file_obj))) (tr : trace)
    (items : list json) :
  400 <= status_code
           (response_to P tr
              (request_call P self method path params json_data files false)) ->
  json_loads P
    (resp_text (response_to P tr
                  (request_call P self method path params json_data files
                     false))) = Some (JArray items) ->
  fst (_request P self method path params json_data files false tr) =
  Raise (builtin AttributeError).
Proof.
  intros Hstatus Hbody. rewrite request_run. simpl.
  unfold interpret. rewrite Hbody.
  apply Z.leb_le in Hstatus. rewrite Hstatus.
  destruct (Z.eqb _ 401); [| destruct (Z.eqb _ 404)]; reflexivity.
Qed.

(** C1: when the status is 400 or more and the body decodes to a JSON
    object, a call that is not streamed raises the error mapped from the
    status -- [AuthenticationError] for 401, [ResourceNotFoundError] for 404,
    [APIError] for every other status -- and the error carries the [message]
    field of the body. *)
Theorem request_raises_status_mapped_error :
  forall (P : platform) (self : RagFlowClient) (method path : string)
         (params json_data : option dict)
         (files : option (list (string * file_obj))) (tr : trace)
         (response : response) (fields : dict),
    response =
      response_to P tr
        (request_call P self method path params json_data files false) ->
    400 <= status_code response ->
    json_loads P (resp_text response) = Some (JObject fields) ->
    (status_code response = 401 ->
     fst (_request P self method path params json_data files false tr) =
     Raise (mk_exn AuthenticationError
              (ArgValue (Dict.get "message" (JString "Authentication failed")
                                  fields))))
    /\ (status_code response = 404 ->
        fst (_request P self method path params json_data files false tr) =
        Raise (mk_exn ResourceNotFoundError
                 (ArgValue (Dict.get "message" (JString "Resource not found")
                                     fields))))
    /\ (status_code response <> 401 -> status_code response <> 404 ->
        fst (_request P self method path params json_data files false tr) =
        Raise (mk_exn APIError
                 (ArgText [Lit "API request failed: ";
                           py_str (Dict.get "message" (JString "Unknown error")
                                            fields)])))
    /\ (forall message,
           Dict.lookup "message" fields = Some message ->
           exists e,
             fst (_request P self method path params json_data files false tr)
             = Raise e
             /\ carries e message).
Proof.
  intros P self method path params json_data files tr response fields
         Hresp Hstatus Hbody.
  rewrite request_run. simpl. rewrite <- Hresp.
  unfold interpret. rewrite Hbody.
  assert (Hge : Z.leb 400 (status_code response) = true)
    by now apply Z.leb_le.
  rewrite Hge. simpl.
  repeat split.
  - intros H401. rewrite H401. reflexivity.
  - intros H404. rewrite H404. reflexivity.
  - intros N401 N404.
    apply Z.eqb_neq in N401. apply Z.eqb_neq in N404.
    rewrite N401, N404. reflexivity.
  - intros message Hmessage.
    unfold carries, exn_str.
    destruct (Z.eqb (status_code response) 401);
      [| destruct (Z.eqb (status_code response) 404)];
      simpl; eexists; (split; [reflexivity |]); simpl;
      rewrite (get_lookup "message" _ message fields Hmessage); auto.
Qed.

Lemma request_raises_status_mapped_error_witness :
  400 <= status_code
           (response_to Scenario.unauthorized []
              (request_call Scenario.unauthorized Demo.client "GET"
                 "/api/v1/datasets" None None None false))
  /\ fst (_request Scenario.unauthorized Demo.client "GET" "/api/v1/datasets"
            None None None false []) =
     Raise (mk_exn AuthenticationError (ArgValue (JString "invalid key"))).
Proof.
  split.
  - vm_compute. discriminate.
  - apply (proj1 (request_raises_status_mapped_error
                    Scenario.unauthorized Demo.client "GET" "/api/v1/datasets"
                    None None None [] _ [("message", JString "invalid key")]
                    eq_refl
                    ltac:(vm_compute; discriminate)
                    ltac:(vm_compute; reflexivity))).
    vm_compute. reflexivity.
Defined.

(** C10: the body is decoded before the status is looked at: when the body
    is not valid JSON, a call that is not streamed raises [APIError] whatever
    the status, also for 401 and 404. *)
Theorem request_invalid_json_raises_api_error :
  forall (P : platform) (self : RagFlowClient) (method path : string)
         (params json_data : option dict)
         (files : option (list (string * file_obj))) (tr : trace)
         (response : response),
    response =
      response_to P tr
        (request_call P self method path params json_data files false) ->
    json_loads P (resp_text response) = None ->
    fst (_request P self method path params json_data files false tr) =
    Raise (mk_exn APIError
             (ArgText [Lit "Invalid JSON response: ";
                       Lit (resp_text response)])).
Proof.
  intros P self method path params json_data files tr response Hresp Hbody.
  rewrite request_run. simpl. rewrite <- Hresp.
  unfold interpret. now rewrite Hbody.
Qed.

Lemma request_invalid_json_raises_api_error_witness :
  status_code
    (response_to Scenario.html_not_found []
       (request_call Scenario.html_not_found Demo.client "GET"
          "/api/v1/datasets/ds1/chunks/c1" None None None false)) = 404
  /\ fst (_request Scenario.html_not_found Demo.client "GET"
            "/api/v1/datasets/ds1/chunks/c1" None None None false []) =
     Raise (mk_exn APIError
              (ArgText [Lit "Invalid JSON response: ";
                        Lit "<html>not found</html>"])).
Proof.
  split.
  - reflexivity.
  - apply (request_invalid_json_raises_api_error
             Scenario.html_not_found Demo.client "GET"
             "/api/v1/datasets/ds1/chunks/c1" None None None [] _ eq_refl).
    vm_compute. reflexivity.
Defined.

(** ** Document upload *)

(** [upload_documents] prints, makes its one call outside the session,
    prints again and interprets the response itself *)
Lemma upload_run (P : platform) (self : RagFlowClient) (dataset_id : string)
    (files : list file_obj) (tr : trace) :
  exists t1 t2 t3 t4,
    upload_documents P self dataset_id files tr =
      (match json_loads P (resp_text (response_to P tr
                             (upload_call P self dataset_id files))) with
       | None =>
           Raise (mk_exn APIError
                    (ArgText [Lit "Invalid JSON response: ";
                              Lit (resp_text (response_to P tr
                                     (upload_call P self dataset_id files)))]))
       | Some data =>
           if Z.leb 400 (status_code (response_to P tr
                           (upload_call P self dataset_id files))) then
             match py_get data "message" (JString "Unknown error") with
             | Ok message =>
                 Raise (mk_exn APIError
                          (ArgText [Lit "API request failed: ";
                                    py_str message]))
             | Raise e => Raise e
             end
           else
             match py_get data "data" (JArray []) with
             | Ok documents => Ok (PJson documents)
             | Raise e => Raise e
             end
       end,
       tr ++ [EPrint t1; EPrint t2;
              EHttp (upload_call P self dataset_id files);
              EPrint t3; EPrint t4]).
Proof.
  do 4 eexists.
  unfold upload_documents, bind, print, emit, send, lift, raise, ret.
  simpl. repeat rewrite <- app_assoc. simpl.
  rewrite response_to_prints.
  destruct (json_loads P _) as [data|]; [| reflexivity].
  destruct (Z.leb 400 _).
  - destruct (py_get data "message" _); reflexivity.
  - destruct (py_get data "data" _); reflexivity.
Qed.

(** C9: when the status is 400 or more and the body decodes to a JSON
    object, [upload_documents] raises [APIError] with the body's [message],
    whatever the status: 401 and 404 give [APIError] too, neither
    [AuthenticationError] nor [ResourceNotFoundError]. *)
Theorem upload_documents_error_is_api_error :
  forall (P : platform) (self : RagFlowClient) (dataset_id : string)
         (files : list file_obj) (tr : trace) (response : response)
         (fields : dict),
    response = response_to P tr (upload_call P self dataset_id files) ->
    400 <= status_code response ->
    json_loads P (resp_text response) = Some (JObject fields) ->
    exists e,
      fst (upload_documents P self dataset_id files tr) = Raise e
      /\ e = mk_exn APIError
               (ArgText [Lit "API request failed: ";
                         py_str (Dict.get "message" (JString "Unknown error")
                                          fields)])
      /\ exn_kind e <> AuthenticationError
      /\ exn_kind e <> ResourceNotFoundError.
Proof.
  intros P self dataset_id files tr response fields Hresp Hstatus Hbody.
  destruct (upload_run P self dataset_id files tr) as (t1 & t2 & t3 & t4 & Hrun).
  rewrite Hrun. simpl. rewrite <- Hresp, Hbody.
  apply Z.leb_le in Hstatus. rewrite Hstatus. simpl.
  eexists. split; [reflexivity |]. split; [reflexivity |].
  split; discriminate.
Qed.

Lemma upload_documents_error_is_api_error_witness :
  status_code
    (response_to Scenario.unauthorized []
       (upload_call Scenario.unauthorized Demo.client "ds1" ["docs/a.pdf"]))
  = 401
  /\ exists e,
      fst (upload_documents Scenario.unauthorized Demo.client "ds1"
             ["docs/a.pdf"] []) = Raise e
      /\ e = mk_exn APIError
               (ArgText [Lit "API request failed: "; Lit "invalid key"])
      /\ exn_kind e <> AuthenticationError
      /\ exn_kind e <> ResourceNotFoundError.
Proof.
  split.
  - reflexivity.
  - apply (upload_documents_error_is_api_error
             Scenario.unauthorized Demo.client "ds1" ["docs/a.pdf"] [] _
             [("message", JString "invalid key")] eq_refl
             ltac:(vm_compute; discriminate)
             ltac:(vm_compute; reflexivity)).
Defined.

(** C7, as stated, fails: a successful upload returns the decoded [data]
    field, here a list holding one plain mapping, and no [Document]
    instance. *)
Lemma upload_documents_returns_plain_mappings :
  ~ (forall (P : platform) (self : RagFlowClient) (dataset_id : string)
            (files : list file_obj) (tr : trace) (v : pyvalue) (tr' : trace),
        upload_documents P self dataset_id files tr = (Ok v, tr') ->
        is_document_list v = true).
Proof.
  intros H.
  assert (E : upload_documents Scenario.accepting Demo.client "ds1"
                ["docs/a.pdf"] [] =
              (Ok (PJson (JArray [JObject [("id", JString "d1")]])),
               snd (upload_documents Scenario.accepting Demo.client "ds1"
                      ["docs/a.pdf"] [])))
    by (vm_compute; reflexivity).
  apply H in E. vm_compute in E. discriminate E.
Qed.

(** C7 (amended): a successful call to [upload_documents] returns the
    [data] field of the decoded response body as it is -- plain decoded
    JSON, the empty list when the body has no [data] key -- and builds no
    [Document] instance. *)
Theorem upload_documents_returns_data_field :
  forall (P : platform) (self : RagFlowClient) (dataset_id : string)
         (files : list file_obj) (tr : trace) (v : pyvalue) (tr' : trace),
    upload_documents P self dataset_id files tr = (Ok v, tr') ->
    exists fields,
      json_loads P (resp_text (response_to P tr
                      (upload_call P self dataset_id files))) =
      Some (JObject fields)
      /\ status_code (response_to P tr (upload_call P self dataset_id files))
         < 400
      /\ v = PJson (Dict.get "data" (JArray []) fields).
Proof.
  intros P self dataset_id files tr v tr' Hrun.
  destruct (upload_run P self dataset_id files tr) as (t1 & t2 & t3 & t4 & E).
  rewrite E in Hrun. clear E.
  destruct (json_loads P _) as [data|]; [| discriminate Hrun].
  destruct (Z.leb 400 _) eqn:Hstatus.
  - destruct (py_get data "message" _); discriminate Hrun.
  - destruct data; simpl in Hrun; try discriminate Hrun.
    exists fields. split; [reflexivity |]. split.
    + now apply Z.leb_gt.
    + now inversion Hrun.
Qed.

Lemma upload_documents_returns_data_field_witness :
  exists fields,
    json_loads Scenario.accepting
      (resp_text (response_to Scenario.accepting []
                    (upload_call Scenario.accepting Demo.client "ds1"
                       ["docs/a.pdf"]))) =
    Some (JObject fields)
    /\ status_code (response_to Scenario.accepting []
                      (upload_call Scenario.accepting Demo.client "ds1"
                         ["docs/a.pdf"])) < 400
    /\ PJson (JArray [JObject [("id", JString "d1")]]) =
       PJson (Dict.get "data" (JArray []) fields).
Proof.
  apply (upload_documents_returns_data_field
           Scenario.accepting Demo.client "ds1" ["docs/a.pdf"] []
           (PJson (JArray [JObject [("id", JString "d1")]]))
           (snd (upload_documents Scenario.accepting Demo.client "ds1"
                   ["docs/a.pdf"] []))).
  vm_compute. reflexivity.
Defined.

(** ** Request bodies *)

(** [create_dataset] makes one call, whose JSON body is
    [create_dataset_body] *)
Lemma create_dataset_call (P : platform) (self : RagFlowClient)
    (name : string) (embedding_model description : option string)
    (chunk_method : string) (parser_config : option dict)
    (permission : string) (tr : trace) :
  exists call,
    events_since tr
      (snd (create_dataset P self name embedding_model description
              chunk_method parser_config permission tr)) = [EHttp call]
    /\ call_json call =
       Some (create_dataset_body name embedding_model description
               chunk_method parser_config permission).
Proof.
  unfold create_dataset, bind. rewrite request_run.
  eexists. split.
  - destruct (interpret P _); simpl; apply events_since_app.
  - reflexivity.
Qed.

(** C6, on the code: called with [embedding_model] and [description]
    unset, [create_dataset] sends a JSON body that does hold both keys,
    each with the value [null]. *)
Theorem create_dataset_sends_unset_fields :
  forall (P : platform) (self : RagFlowClient) (name chunk_method : string)
         (parser_config : option dict) (permission : string) (tr : trace),
  exists call body,
    events_since tr
      (snd (create_dataset P self name None None chunk_method parser_config
              permission tr)) = [EHttp call]
    /\ call_json call = Some body
    /\ Dict.lookup "embedding_model" body = Some JNull
    /\ Dict.lookup "description" body = Some JNull.
Proof.
  intros P self name cm pc pe tr.
  destruct (create_dataset_call P self name None None cm pc pe tr)
    as (call & Hevents & Hbody).
  exists call. eexists. split; [exact Hevents |]. split; [exact Hbody |].
  split; reflexivity.
Qed.

(** the sibling operations leave an unset field out of the body *)
Lemma update_dataset_omits_unset_fields :
  update_dataset_body None None None = []
  /\ forall name, Dict.mem "embedding_model"
                    (update_dataset_body name None None) = false.
Proof.
  split; [reflexivity |].
  intros name. unfold update_dataset_body, set_if_truthy.
  destruct name as [s|]; [| reflexivity].
  destruct (opt_truthy (Some s)); reflexivity.
Qed.

Lemma drop_none_lookup (k : string) (d : dict) :
  Dict.lookup k (Dict.drop_none d) <> Some JNull.
Proof.
  induction d as [|[k' v] d IH]; simpl; [discriminate |].
  destruct v; simpl; try assumption;
    destruct (String.eqb k k'); try assumption; discriminate.
Qed.

Lemma retrieve_chunks_omits_unset_fields :
  forall question dataset_ids document_ids page page_size st vw top_k
         rerank_id keyword highlight key,
    Dict.lookup key
      (retrieve_chunks_body question dataset_ids document_ids page page_size
         st vw top_k rerank_id keyword highlight) <> Some JNull.
Proof. intros. apply drop_none_lookup. Qed.

(** ** Streaming chat completion *)

(** the chunks come in the order of the lines, and a line that gives no
    chunk leaves the list as it is *)
Lemma stream_chunks_in_order (P : platform) (lines : list string)
    (chunks : list json) :
  stream_chunks P lines chunks =
  chunks ++ flat_map (fun line => match chunk_of_line P line with
                                  | Some chunk => [chunk]
                                  | None => []
                                  end) lines.
Proof.
  revert chunks. induction lines as [|line rest IH]; intros chunks; simpl.
  - now rewrite app_nil_r.
  - destruct (chunk_of_line P line) as [chunk|]; rewrite IH; simpl.
    + now rewrite <- app_assoc.
    + reflexivity.
Qed.

(** a line that does not parse is dropped, and nothing is raised *)
Lemma stream_chunks_drops_malformed (P : platform) (line : string)
    (rest : list string) (chunks : list json) :
  json_loads P (Str.strip (Str.lstrip "data: " line)) = None ->
  stream_chunks P (line :: rest) chunks = stream_chunks P rest chunks.
Proof.
  intros Hbad. simpl. unfold chunk_of_line.
  destruct (Str.is_empty line); [reflexivity |].
  destruct (Str.is_empty _); [reflexivity |].
  now rewrite Hbad.
Qed.

(** the stream of the specification gives its one chunk *)
Lemma stream_of_specification :
  fst (create_chat_completion (Scenario.streaming Scenario.spec_lines)
         Demo.client "chat1" [] "model" true []) =
  Ok (PJson (JArray [JObject [("id", JString "1")]])).
Proof. vm_compute. reflexivity. Qed.

(** C4, on the code: the line [data: true] holds the JSON value [true]
    after its prefix, so the reader as documented gives one chunk; the code
    strips every leading character found in the set [d, a, t, :, space], which
    takes the [t] of [true] away, and the chunk is lost. *)
Theorem stream_prefix_strip_loses_chunk :
  fst (create_chat_completion (Scenario.streaming ["data: true"])
         Demo.client "chat1" [] "model" true []) = Ok (PJson (JArray []))
  /\ Str.lstrip "data: " "data: true" = "rue"%string
  /\ documented_stream_chunks JsonText.loads ["data: true"] = [JBool true].
Proof. repeat split; vm_compute; reflexivity. Qed.

(** the set of characters also takes a prefix written without its space *)
Lemma stream_prefix_strip_accepts_other_prefix :
  chunk_of_line (Scenario.streaming []) "data:[1]" = Some (JArray [JInt 1])
  /\ documented_chunk_of_line JsonText.loads "data:[1]" = None.
Proof. split; vm_compute; reflexivity. Qed.

(** ** Propagation of errors *)

Lemma interpret_error_status (P : platform) (r : response) :
  400 <= status_code r -> exists e, interpret P r = Raise e.
Proof.
  intros Hstatus. apply Z.leb_le in Hstatus.
  unfold interpret. rewrite Hstatus.
  destruct (json_loads P (resp_text r)) as [data|]; [| eauto].
  destruct (Z.eqb (status_code r) 401);
    [| destruct (Z.eqb (status_code r) 404)];
    destruct (py_get data "message" _); simpl; eauto.
Qed.

Lemma for_each_write (chunks : list string) (tr : trace) :
  for_each chunks (fun chunk => emit (EWrite chunk)) tr =
  (Ok tt, tr ++ map EWrite chunks).
Proof.
  revert tr. induction chunks as [|chunk rest IH]; intros tr; simpl.
  - unfold ret. now rewrite app_nil_r.
  - unfold bind, emit. rewrite IH. now rewrite <- app_assoc.
Qed.

Lemma http_not_written (hc : http_call) (chunks : list string) :
  ~ In (EHttp hc) (map EWrite chunks).
Proof.
  intros Hin. apply in_map_iff in Hin. destruct Hin as (x & Hx & _).
  discriminate Hx.
Qed.

(** a method made of one [_request] and of a continuation without effects *)
Lemma propagates_via_request (P : platform) (self : RagFlowClient)
    (c : facade_call) (method path : string) (params json_data : option dict)
    (k : request_result -> outcome pyvalue) (tr : trace) (hc : http_call) :
  (unwraps c = true ->
   forall data e, handle_response data = Raise e -> k (Decoded data) = Raise e) ->
  In (EHttp hc)
     (events_since tr
        (snd (bind (_request P self method path params json_data None false)
                   (fun r => lift (k r)) tr))) ->
  propagates P c tr hc
    (fst (bind (_request P self method path params json_data None false)
               (fun r => lift (k r)) tr)).
Proof.
  intros Hk. unfold bind. rewrite request_run.
  destruct (interpret P _) as [data|e0] eqn:Hi; unfold lift; simpl;
    rewrite events_since_app; intros [Heq | []];
    inversion Heq; subst hc; clear Heq; unfold propagates; rewrite Hi.
  - repeat split.
    + intros e _ _ He. discriminate He.
    + intros data' e _ _ Hd Hunwrap Hh. inversion Hd; subst data'.
      now apply Hk.
    + intros Hstatus.
      destruct (interpret_error_status P _ Hstatus) as [e He].
      rewrite Hi in He. discriminate He.
  - repeat split.
    + intros e _ _ He. now inversion He.
    + intros data' e _ _ Hd. discriminate Hd.
    + intros _. now exists e0.
Qed.

(** C5: in the non-streaming chat completion, an [APIError] that
    [handle_response] raises is caught: the error is printed and the method
    returns [None].  Every other method of the facade lets errors through:
    an error of the shared interpreter or of [handle_response] is the error
    the method ends with, and an error status always ends in an exception. *)
Theorem chat_completion_alone_catches_api_error :
  forall (P : platform) (self : RagFlowClient),
    (forall chat_id messages model tr tr' data e,
        _request P self "POST" (chat_path chat_id) None
                 (Some (chat_body messages model false)) None false tr =
        (Ok (Decoded data), tr') ->
        handle_response data = Raise e ->
        exn_kind e = APIError ->
        create_chat_completion P self chat_id messages model false tr =
        (Ok PNone, tr' ++ [EPrint (Lit "API请求失败: " :: exn_str e)]))
    /\ (forall c tr hc,
           is_chat_completion c = false ->
           In (EHttp hc) (events_since tr (snd (run_call P self c tr))) ->
           propagates P c tr hc (fst (run_call P self c tr))).
Proof.
  intros P self. split.
  - intros chat_id messages model tr tr' data e Hreq Hh Hkind.
    unfold create_chat_completion, bind, try_except, lift.
    rewrite Hreq. simpl. rewrite Hh. simpl. rewrite Hkind. reflexivity.
  - intros c tr hc Hc.
    destruct c; try discriminate Hc; clear Hc; simpl run_call.
    + (* create_dataset *)
      eapply propagates_via_request.
      intros _ data e Hh. simpl. now rewrite Hh.
    + (* list_datasets *)
      eapply propagates_via_request.
      intros _ data e Hh. simpl. now rewrite Hh.
    + (* delete_datasets *)
      apply (propagates_via_request P self _ _ _ _ _ (fun _ => Ok PNone)).
      discriminate.
    + (* update_dataset *)
      apply (propagates_via_request P self _ _ _ _ _ (fun _ => Ok PNone)).
      discriminate.
    + (* upload_documents *)
      destruct (upload_run P self dataset_id files tr)
        as (t1 & t2 & t3 & t4 & Hrun).
      rewrite Hrun. simpl fst. simpl snd. rewrite events_since_app.
      intros Hin.
      assert (hc = upload_call P self dataset_id files) as ->.
      { simpl in Hin.
        destruct Hin as [H | [H | [H | [H | [H | []]]]]];
          try discriminate H. now inversion H. }
      repeat split.
      * intros e Hsession. now elim Hsession.
      * intros data e Hsession. now elim Hsession.
      * intros Hstatus. apply Z.leb_le in Hstatus. rewrite Hstatus.
        destruct (json_loads P _) as [data|]; [| eauto].
        destruct (py_get data "message" _); eauto.
    + (* update_document *)
      apply (propagates_via_request P self _ _ _ _ _ (fun _ => Ok PNone)).
      discriminate.
    + (* download_document *)
      unfold download_document, bind, send. simpl.
      destruct (Z.leb 400 (status_code _)) eqn:Hstatus.
      * destruct (json_loads P _) as [data|]; unfold lift, ret, raise;
          [destruct (py_get data "message" _) |]; simpl;
          rewrite events_since_app; intros [Heq | []];
          inversion Heq; subst hc; clear Heq; repeat split;
          try (intros ? _ Hstream; discriminate Hstream);
          try (intros ? ? _ Hstream; discriminate Hstream);
          intros _; eauto.
      * rewrite for_each_write. simpl. rewrite <- app_assoc.
        rewrite events_since_app. simpl.
        intros [Heq | Hin]; [| now apply http_not_written in Hin].
        inversion Heq; subst hc; clear Heq.
        repeat split;
          try (intros ? _ Hstream; discriminate Hstream);
          try (intros ? ? _ Hstream; discriminate Hstream).
        intros Hge. apply Z.leb_le in Hge.
        unfold response_to in Hge. simpl in Hge.
        unfold response_to in Hstatus. simpl in Hstatus.
        rewrite Hge in Hstatus. discriminate Hstatus.
    + (* list_chunks *)
      eapply propagates_via_request. discriminate.
    + (* retrieve_chunks *)
      eapply propagates_via_request.
      intros _ data e Hh. simpl. now rewrite Hh.
    + (* get_chunk *)
      eapply propagates_via_request.
      intros _ data e Hh. simpl. now rewrite Hh.
    + (* update_chunk *)
      apply (propagates_via_request P self _ _ _ _ _ (fun _ => Ok PNone)).
      discriminate.
    + (* delete_chunk *)
      apply (propagates_via_request P self _ _ _ _ _ (fun _ => Ok PNone)).
      discriminate.
    + (* parse_documents *)
      eapply propagates_via_request.
      intros _ data e Hh. simpl. now rewrite Hh.
Qed.

Lemma chat_completion_alone_catches_api_error_witness :
  create_chat_completion Scenario.failing Demo.client "chat1" [] "model"
    false [] =
  (Ok PNone,
   snd (_request Scenario.failing Demo.client "POST" (chat_path "chat1") None
          (Some (chat_body [] "model" false)) None false [])
   ++ [EPrint [Lit "API请求失败: "; Lit "API请求失败，错误信息：";
               Lit "chat not found"]])
  /\ fst (run_call Scenario.failing Demo.client
            (GetChunk "ds1" "c1") []) =
     Raise (mk_exn APIError
              (ArgText [Lit "API请求失败，错误信息："; Lit "chat not found"])).
Proof.
  split.
  - apply (proj1 (chat_completion_alone_catches_api_error
                    Scenario.failing Demo.client)
                 "chat1" [] "model" []
                 (snd (_request Scenario.failing Demo.client "POST"
                         (chat_path "chat1") None
                         (Some (chat_body [] "model" false)) None false []))
                 (JObject [("code", JInt 102);
                           ("message", JString "chat not found")])
                 (mk_exn APIError
                    (ArgText [Lit "API请求失败，错误信息：";
                              Lit "chat not found"])));
      vm_compute; reflexivity.
  - apply (proj1 (proj2
             (proj2 (chat_completion_alone_catches_api_error
                       Scenario.failing Demo.client)
                    (GetChunk "ds1" "c1") []
                    (request_call Scenario.failing Demo.client "GET"
                       "/api/v1/datasets/ds1/chunks/c1" None None None false)
                    eq_refl
                    ltac:(vm_compute; left; reflexivity)))
             (JObject [("code", JInt 102);
                       ("message", JString "chat not found")]));
      vm_compute; try reflexivity; discriminate.
Defined.

(** ** The batch script *)

(** the result of [list_datasets] depends on the trace through the calls
    made so far only, and the method adds its one call to the trace *)
Lemma list_datasets_run (P : platform) (self : RagFlowClient)
    (page page_size : Z) (orderby : string) (desc : bool)
    (name dataset_id : option string) (tr tr0 : trace) :
  calls_of tr = calls_of tr0 ->
  list_datasets P self page page_size orderby desc name dataset_id tr =
  (fst (list_datasets P self page page_size orderby desc name dataset_id tr0),
   tr ++ [EHttp (request_call P self "GET" "/api/v1/datasets"
                   (Some (list_datasets_params page page_size orderby desc
                            name dataset_id))
                   None None false)]).
Proof.
  intros Hcalls. unfold list_datasets, bind. rewrite !request_run.
  unfold response_to. rewrite Hcalls.
  destruct (interpret P _); reflexivity.
Qed.

(** C8: when the lookup of the dataset by name returns an empty list, the
    run ends with [ResourceNotFoundError]; all it has done by then is the
    lookup call and four prints: the directory is not listed, no file is
    opened, and neither an upload nor a parse call is made. *)
Theorem missing_dataset_aborts_before_scan :
  forall (P : platform) (dataset_name doc_dir : string) (tr : trace)
         (client : RagFlowClient),
    RagFlowClient_init P None None = Ok client ->
    fst (list_datasets P client 1 30 "create_time" true (Some dataset_name)
           None tr) = Ok (PList []) ->
    upload_and_parse_documents P dataset_name doc_dir tr =
    (Raise (mk_exn ResourceNotFoundError
              (ArgText [Lit "数据集 "; Lit dataset_name; Lit " 不存在"])),
     tr ++ [EPrint [Lit "[INFO] 客户端初始化成功"];
            EPrint [Lit "[INFO] 查找/创建数据集: "; Lit dataset_name];
            EHttp (request_call P client "GET" "/api/v1/datasets"
                     (Some (list_datasets_params 1 30 "create_time" true
                              (Some dataset_name) None))
                     None None false);
            EPrint [Lit "[INFO] 未找到数据集: "; Lit dataset_name];
            EPrint [Lit "[ERROR] 执行过程中发生异常: "; Lit "数据集 ";
                    Lit dataset_name; Lit " 不存在"]])
    /\ (forall ev,
           In ev (events_since tr
                    (snd (upload_and_parse_documents P dataset_name doc_dir
                            tr))) ->
           match ev with
           | EPrint _ => True
           | EHttp call => call_method call = "GET"%string
                           /\ call_files call = NoFiles
           | EListDir _ | EOpen _ | EClose _ | EWrite _ => False
           end).
Proof.
  intros P dataset_name doc_dir tr client Hinit Hempty.
  assert (Hrun :
    upload_and_parse_documents P dataset_name doc_dir tr =
    (Raise (mk_exn ResourceNotFoundError
              (ArgText [Lit "数据集 "; Lit dataset_name; Lit " 不存在"])),
     tr ++ [EPrint [Lit "[INFO] 客户端初始化成功"];
            EPrint [Lit "[INFO] 查找/创建数据集: "; Lit dataset_name];
            EHttp (request_call P client "GET" "/api/v1/datasets"
                     (Some (list_datasets_params 1 30 "create_time" true
                              (Some dataset_name) None))
                     None None false);
            EPrint [Lit "[INFO] 未找到数据集: "; Lit dataset_name];
            EPrint [Lit "[ERROR] 执行过程中发生异常: "; Lit "数据集 ";
                    Lit dataset_name; Lit " 不存在"]])).
  { unfold upload_and_parse_documents, try_except, bind, resolve_dataset,
      bind, print, emit, lift, raise.
    rewrite Hinit.
    rewrite (list_datasets_run P client 1 30 "create_time" true
               (Some dataset_name) None _ tr).
    - rewrite Hempty. simpl. repeat rewrite <- app_assoc. reflexivity.
    - repeat rewrite calls_of_app. simpl. now rewrite !app_nil_r. }
  split; [exact Hrun |].
  rewrite Hrun. simpl snd. rewrite events_since_app.
  intros ev Hin. simpl in Hin.
  destruct Hin as [H | [H | [H | [H | [H | []]]]]]; subst ev; simpl; auto.
Qed.

Lemma missing_dataset_aborts_before_scan_witness :
  fst (list_datasets Scenario.no_dataset Demo.client 1 30 "create_time" true
         (Some "kb") None []) = Ok (PList [])
  /\ fst (upload_and_parse_documents Scenario.no_dataset "kb" "docs" []) =
     Raise (mk_exn ResourceNotFoundError
              (ArgText [Lit "数据集 "; Lit "kb"; Lit " 不存在"]))
  /\ calls_of (snd (upload_and_parse_documents Scenario.no_dataset "kb" "docs"
                      [])) =
     [request_call Scenario.no_dataset
        (mk_client "secret" "http://120.224.107.249:22280"
           [("Authorization", "Bearer secret");
            ("Content-Type", "application/json")])
        "GET" "/api/v1/datasets"
        (Some (list_datasets_params 1 30 "create_time" true (Some "kb") None))
        None None false].
Proof.
  split; [vm_compute; reflexivity |].
  pose proof (proj1 (missing_dataset_aborts_before_scan
                       Scenario.no_dataset "kb" "docs" []
                       (mk_client "secret" "http://120.224.107.249:22280"
                          [("Authorization", "Bearer secret");
                           ("Content-Type", "application/json")])
                       eq_refl
                       ltac:(vm_compute; reflexivity))) as Hrun.
  rewrite Hrun. split; reflexivity.
Defined.


(** * Further properties of the client *)

(** ** Construction of the client and of URLs *)

(** X1: the client is built exactly when a non-empty API key comes from the
    argument or, failing that, from the environment; the argument wins over
    the environment, and without a key the constructor raises
    [AuthenticationError]. *)
Theorem client_requires_api_key :
  forall (P : platform) (key url : option string),
    (opt_truthy key = false ->
     opt_truthy (getenv P "RAGFLOW_API_KEY") = false ->
     RagFlowClient_init P key url =
     Raise (mk_exn AuthenticationError (ArgText [Lit "API key is required"])))
    /\ (forall k, key = Some k -> k <> ""%string ->
                  exists c, RagFlowClient_init P key url = Ok c
                            /\ api_key c = k
                            /\ session_headers c =
                               [("Authorization", ("Bearer " ++ k)%string);
                                ("Content-Type", "application/json"%string)])
    /\ (forall k, opt_truthy key = false ->
                  getenv P "RAGFLOW_API_KEY" = Some k -> k <> ""%string ->
                  exists c, RagFlowClient_init P key url = Ok c
                            /\ api_key c = k).
Proof.
  intros P key url. unfold RagFlowClient_init. repeat split.
  - intros Hkey Henv. rewrite Hkey.
    destruct (getenv P "RAGFLOW_API_KEY") as [k|]; [| reflexivity].
    now rewrite Henv.
  - intros k -> Hk.
    assert (Ht : opt_truthy (Some k) = true).
    { simpl. destruct (String.eqb_spec k ""); [contradiction | reflexivity]. }
    rewrite Ht. rewrite Ht. eexists. repeat split.
  - intros k Hkey Henv Hk. rewrite Hkey, Henv.
    assert (Ht : opt_truthy (Some k) = true).
    { simpl. destruct (String.eqb_spec k ""); [contradiction | reflexivity]. }
    rewrite Ht. eexists. repeat split.
Qed.

Lemma client_requires_api_key_witness :
  RagFlowClient_init Cases.no_key None None =
  Raise (mk_exn AuthenticationError (ArgText [Lit "API key is required"]))
  /\ exists c, RagFlowClient_init Cases.no_key (Some "k1"%string) None = Ok c
               /\ api_key c = "k1"%string
               /\ session_headers c =
                  [("Authorization", "Bearer k1"%string);
                   ("Content-Type", "application/json"%string)].
Proof.
  split.
  - apply (proj1 (client_requires_api_key Cases.no_key None None));
      reflexivity.
  - apply (proj1 (proj2 (client_requires_api_key Cases.no_key
                           (Some "k1"%string) None)) "k1"%string eq_refl).
    discriminate.
Defined.

Lemma rev_acc_app (s t acc : string) :
  Str.rev_acc (s ++ t)%string acc = Str.rev_acc t (Str.rev_acc s acc).
Proof.
  revert acc. induction s as [|c s IH]; intros acc; simpl; [reflexivity |].
  apply IH.
Qed.

(** X2: a slash at the end of the base URL and a slash at the start of the
    path make no difference to [join_url]. *)
Theorem join_url_ignores_boundary_slashes :
  forall (P : platform) (base path : string),
    join_url P (base ++ "/")%string path = join_url P base path
    /\ join_url P base ("/" ++ path)%string = join_url P base path.
Proof.
  intros P base path. unfold join_url. split.
  - unfold Str.rstrip, Str.rev. rewrite rev_acc_app. reflexivity.
  - reflexivity.
Qed.

(** ** [_request] on success and on a stream *)

Lemma interpret_success (P : platform) (r : response) (data : json) :
  status_code r < 400 ->
  json_loads P (resp_text r) = Some data ->
  interpret P r = Ok data.
Proof.
  intros Hstatus Hbody. unfold interpret. rewrite Hbody.
  apply Z.leb_gt in Hstatus. now rewrite Hstatus.
Qed.

(** X3: below status 400, a call that is not streamed returns the decoded
    body as it is -- whatever JSON value it is -- and has made exactly the one
    call. *)
Theorem request_success_returns_body :
  forall (P : platform) (self : RagFlowClient) (method path : string)
         (params json_data : option dict)
         (files : option (list (string * file_obj))) (tr : trace)
         (data : json),
    status_code
      (response_to P tr
         (request_call P self method path params json_data files false))
    < 400 ->
    json_loads P
      (resp_text
         (response_to P tr
            (request_call P self method path params json_data files false)))
    = Some data ->
    _request P self method path params json_data files false tr =
    (Ok (Decoded data),
     tr ++ [EHttp (request_call P self method path params json_data files
                     false)]).
Proof.
  intros P self method path params json_data files tr data Hstatus Hbody.
  rewrite request_run. now rewrite (interpret_success P _ data Hstatus Hbody).
Qed.

Lemma request_success_returns_body_witness :
  _request Scenario.failing Demo.client "GET" "/api/v1/datasets" None None
    None false [] =
  (Ok (Decoded (JObject [("code", JInt 102);
                         ("message", JString "chat not found")])),
   [EHttp (request_call Scenario.failing Demo.client "GET" "/api/v1/datasets"
             None None None false)]).
Proof.
  apply (request_success_returns_body Scenario.failing Demo.client "GET"
           "/api/v1/datasets" None None None []).
  - vm_compute. reflexivity.
  - vm_compute. reflexivity.
Defined.

Lemma flat_map_at_most_one {A B : Type} (f : A -> option B) (xs : list A) :
  (length (flat_map (fun x => match f x with
                              | Some y => [y]
                              | None => []
                              end) xs) <= length xs)%nat.
Proof.
  induction xs as [|x xs IH]; simpl; [lia |].
  destruct (f x); simpl; lia.
Qed.

(** X4: the streaming chat completion never raises: whatever the status
    and the body of the response, it makes one streamed call and returns a
    list with at most one chunk per line. *)
Theorem streaming_completion_never_raises :
  forall (P : platform) (self : RagFlowClient) (chat_id : string)
         (messages : list dict) (model : string) (tr : trace),
  exists call chunks,
    create_chat_completion P self chat_id messages model true tr =
    (Ok (PJson (JArray chunks)), tr ++ [EHttp call])
    /\ call_stream call = true
    /\ call_json call = Some (chat_body messages model true)
    /\ chunks = stream_chunks P (iter_lines (response_to P tr call)) []
    /\ (length chunks <= length (iter_lines (response_to P tr call)))%nat.
Proof.
  intros P self chat_id messages model tr.
  do 2 eexists. split; [reflexivity |].
  repeat split.
  rewrite stream_chunks_in_order. simpl.
  apply (flat_map_at_most_one (chunk_of_line P)).
Qed.



(** ** [handle_response] *)

(** X6: [handle_response] never returns [null]: what it returns is the
    non-null [data] of the envelope or the response itself. *)
Theorem handle_response_never_null :
  forall (response v : json),
    handle_response response = Ok v -> v <> JNull.
Proof.
  intros response v. unfold handle_response.
  destruct response as [| b | z | m e | s | items | fields]; simpl;
    try discriminate.
  - destruct (Str.contains "code" s); simpl; [discriminate |].
    intros H; inversion H; discriminate.
  - destruct (existsb _ items); simpl; [discriminate |].
    intros H; inversion H; discriminate.
  - destruct (Dict.mem "code" fields); simpl.
    + destruct (py_eq_int (Dict.get "code" JNull fields) 0); simpl;
        [| discriminate].
      destruct (Dict.get "data" JNull fields) eqn:Hdata;
        intros H; inversion H; discriminate.
    + intros H; inversion H; discriminate.
Qed.

Lemma handle_response_never_null_witness :
  JObject [("code", JInt 0); ("data", JNull)] <> JNull.
Proof.
  apply (handle_response_never_null
           (JObject [("code", JInt 0); ("data", JNull)])).
  reflexivity.
Defined.

(** ** The facade methods built on [_request] *)

Lemma run_via_request (P : platform) (self : RagFlowClient)
    (method path : string) (params json_data : option dict)
    (k : request_result -> outcome pyvalue) (tr : trace) :
  bind (_request P self method path params json_data None false)
       (fun r => lift (k r)) tr =
  (match interpret P (response_to P tr
                        (request_call P self method path params json_data
                           None false)) with
   | Ok data => k (Decoded data)
   | Raise e => Raise e
   end,
   tr ++ [EHttp (request_call P self method path params json_data None
                   false)]).
Proof.
  unfold bind. rewrite request_run.
  destruct (interpret P _); reflexivity.
Qed.

Lemma run_via_request_none (P : platform) (self : RagFlowClient)
    (method path : string) (params json_data : option dict) (tr : trace) :
  bind (_request P self method path params json_data None false)
       (fun _ => ret PNone) tr =
  (match interpret P (response_to P tr
                        (request_call P self method path params json_data
                           None false)) with
   | Ok _ => Ok PNone
   | Raise e => Raise e
   end,
   tr ++ [EHttp (request_call P self method path params json_data None
                   false)]).
Proof.
  unfold bind. rewrite request_run.
  destruct (interpret P _); reflexivity.
Qed.

(** opens a method made of one [_request] and names its call *)
Ltac open_method hc :=
  simpl run_call;
  unfold create_dataset, list_datasets, delete_datasets, update_dataset,
    update_document, list_chunks, retrieve_chunks, get_chunk, update_chunk,
    delete_chunk, parse_documents;
  first [rewrite run_via_request | rewrite run_via_request_none];
  simpl fst; simpl snd; rewrite events_since_app;
  let Heq := fresh "Heq" in
  intros [Heq | []]; inversion Heq; subst hc; clear Heq.

(** X7: the second tier of errors: when the status is below 400 and the
    body is an envelope whose [code] differs from 0, every method that unwraps
    the envelope (create_dataset, list_datasets, retrieve_chunks, get_chunk,
    parse_documents) raises [APIError] with the envelope's message. *)
Theorem unwrapping_methods_raise_on_envelope_error :
  forall (P : platform) (self : RagFlowClient) (c : facade_call) (tr : trace)
         (hc : http_call) (fields : dict) (code : json),
    is_chat_completion c = false ->
    unwraps c = true ->
    In (EHttp hc) (events_since tr (snd (run_call P self c tr))) ->
    status_code (response_to P tr hc) < 400 ->
    json_loads P (resp_text (response_to P tr hc)) = Some (JObject fields) ->
    Dict.lookup "code" fields = Some code ->
    py_eq_int code 0 = false ->
    fst (run_call P self c tr) =
    Raise (mk_exn APIError
             (ArgText [Lit "API请求失败，错误信息：";
                       py_str (Dict.get "message" (JString "未知错误")
                                        fields)])).
Proof.
  intros P self c tr hc fields code Hchat Hunwrap.
  destruct c; try discriminate Hchat; try discriminate Hunwrap;
    open_method hc; intros Hstatus Hbody Hcode Hnonzero;
    rewrite (interpret_success P _ _ Hstatus Hbody); simpl;
    rewrite (handle_response_envelope fields code Hcode), Hnonzero;
    reflexivity.
Qed.

Lemma unwrapping_methods_raise_on_envelope_error_witness :
  fst (run_call Cases.soft_failure Demo.client
         (ParseDocuments "ds1" [JString "d1"]) []) =
  Raise (mk_exn APIError
           (ArgText [Lit "API请求失败，错误信息："; Lit "chat not found"])).
Proof.
  apply (unwrapping_methods_raise_on_envelope_error
           Cases.soft_failure Demo.client
           (ParseDocuments "ds1" [JString "d1"]) []
           (request_call Cases.soft_failure Demo.client "POST"
              "/api/v1/datasets/ds1/chunks" None
              (Some [("document_ids", JArray [JString "d1"])]) None false)
           [("code", JInt 102); ("message", JString "chat not found")]
           (JInt 102));
    try reflexivity.
  all: vm_compute; auto.
Defined.

(** X8: the methods that return [None] (delete_datasets, update_dataset,
    update_document, update_chunk, delete_chunk) never look into the body:
    below status 400 and with any JSON body -- an envelope whose [code]
    reports a failure included -- they return [None]; [list_chunks] likewise
    returns the decoded body whole, envelope and all. *)
Theorem silent_methods_ignore_envelope :
  forall (P : platform) (self : RagFlowClient) (c : facade_call) (tr : trace)
         (hc : http_call) (data : json),
    In (EHttp hc) (events_since tr (snd (run_call P self c tr))) ->
    status_code (response_to P tr hc) < 400 ->
    json_loads P (resp_text (response_to P tr hc)) = Some data ->
    (returns_none c = true -> fst (run_call P self c tr) = Ok PNone)
    /\ (forall dataset_id document_id page page_size orderby desc,
           c = ListChunks dataset_id document_id page page_size orderby desc ->
           fst (run_call P self c tr) = Ok (PJson data)).
Proof.
  intros P self c tr hc data Hin Hstatus Hbody. split.
  - intros Hnone. revert Hin Hstatus Hbody.
    destruct c; try discriminate Hnone;
      open_method hc; intros Hstatus Hbody;
      now rewrite (interpret_success P _ _ Hstatus Hbody).
  - intros dataset_id document_id page page_size orderby desc ->.
    revert Hin Hstatus Hbody. open_method hc. intros Hstatus Hbody.
    now rewrite (interpret_success P _ _ Hstatus Hbody).
Qed.

Lemma silent_methods_ignore_envelope_witness :
  fst (run_call Cases.soft_failure Demo.client
         (DeleteDatasets ["ds1"%string]) []) = Ok PNone
  /\ handle_response
       (JObject [("code", JInt 102); ("message", JString "chat not found")])
     <> Ok (JObject [("code", JInt 102);
                     ("message", JString "chat not found")]).
Proof.
  split.
  - apply (proj1 (silent_methods_ignore_envelope
                    Cases.soft_failure Demo.client
                    (DeleteDatasets ["ds1"%string]) []
                    (request_call Cases.soft_failure Demo.client "DELETE"
                       "/api/v1/datasets" None
                       (Some [("ids", JArray [JString "ds1"])]) None false)
                    (JObject [("code", JInt 102);
                              ("message", JString "chat not found")])
                    ltac:(vm_compute; left; reflexivity)
                    ltac:(vm_compute; reflexivity)
                    ltac:(vm_compute; reflexivity))).
    reflexivity.
  - vm_compute. discriminate.
Defined.

Lemma calls_of_writes (chunks : list string) :
  calls_of (map EWrite chunks) = [].
Proof. induction chunks; simpl; auto. Qed.

(** X9: every method of the facade makes exactly one HTTP call, whether it
    ends with a value or with an exception: no call is repeated and none is
    skipped. *)
Theorem every_method_makes_one_call :
  forall (P : platform) (self : RagFlowClient) (c : facade_call) (tr : trace),
  exists hc,
    calls_of (snd (run_call P self c tr)) = calls_of tr ++ [hc].
Proof.
  intros P self c tr.
  destruct c; simpl run_call;
    unfold create_dataset, list_datasets, delete_datasets, update_dataset,
      update_document, list_chunks, retrieve_chunks, get_chunk, update_chunk,
      delete_chunk, parse_documents;
    try (first [rewrite run_via_request | rewrite run_via_request_none];
         simpl snd; rewrite calls_of_app; simpl; eauto).
  - (* create_chat_completion *)
    destruct stream.
    + destruct (streaming_completion_never_raises P self chat_id messages
                  model tr) as (call & chunks & Hrun & _).
      rewrite Hrun. simpl snd. rewrite calls_of_app. simpl. eauto.
    + unfold create_chat_completion, bind, try_except, lift, ret, print, emit.
      rewrite request_run.
      destruct (interpret P _) as [data|e]; simpl.
      * destruct (handle_response data) as [v|e]; simpl.
        -- rewrite calls_of_app. simpl. eauto.
        -- destruct (exn_kind e); simpl;
             rewrite ?calls_of_app; simpl; rewrite ?app_nil_r; eauto.
      * rewrite calls_of_app. simpl. eauto.
  - (* upload_documents *)
    destruct (upload_run P self dataset_id files tr)
      as (t1 & t2 & t3 & t4 & Hrun).
    rewrite Hrun. simpl snd. rewrite calls_of_app. simpl. eauto.
  - (* download_document *)
    unfold download_document, bind, send. simpl.
    destruct (Z.leb 400 _).
    + destruct (json_loads P _) as [data|]; unfold lift, ret, raise;
        [destruct (py_get data "message" _) |]; simpl;
        rewrite calls_of_app; simpl; eauto.
    + rewrite for_each_write. simpl. rewrite !calls_of_app. simpl.
      rewrite calls_of_writes, app_nil_r. eauto.
Qed.

(** ** Download *)

(** X10: below status 400, [download_document] writes the pieces of the
    body to the output in the order they arrive, after its one streamed call,
    and returns [None]; the body is never decoded. *)
Theorem download_writes_pieces_in_order :
  forall (P : platform) (self : RagFlowClient)
         (dataset_id document_id : string) (tr : trace) (call : http_call),
    call = {| via_session := Some (session_headers self);
              call_method := "GET";
              call_url := join_url P (base_url self)
                            ("/api/v1/datasets/" ++ dataset_id
                             ++ "/documents/" ++ document_id)%string;
              call_params := None;
              call_json := None;
              call_files := NoFiles;
              call_headers := None;
              call_stream := true |} ->
    status_code (response_to P tr call) < 400 ->
    download_document P self dataset_id document_id tr =
    (Ok PNone,
     tr ++ EHttp call :: map EWrite (iter_content (response_to P tr call))).
Proof.
  intros P self dataset_id document_id tr call -> Hstatus.
  unfold download_document, bind, send.
  apply Z.leb_gt in Hstatus. rewrite Hstatus.
  rewrite for_each_write. unfold ret.
  now rewrite <- app_assoc.
Qed.

Lemma download_writes_pieces_in_order_witness :
  exists call,
    download_document Cases.pieces Demo.client "ds1" "d1" [] =
    (Ok PNone, [EHttp call; EWrite "ab"; EWrite "cd"; EWrite "e"]).
Proof.
  eexists.
  apply (download_writes_pieces_in_order Cases.pieces Demo.client "ds1" "d1"
           [] _ eq_refl).
  reflexivity.
Defined.

(** X11: at status 400 or more, [download_document] raises [APIError] and
    writes nothing; the message is the body text when the body is not JSON,
    and the [message] field (or a default) when it is a JSON object. *)
Theorem download_error_writes_nothing :
  forall (P : platform) (self : RagFlowClient)
         (dataset_id document_id : string) (tr : trace) (call : http_call),
    call = {| via_session := Some (session_headers self);
              call_method := "GET";
              call_url := join_url P (base_url self)
                            ("/api/v1/datasets/" ++ dataset_id
                             ++ "/documents/" ++ document_id)%string;
              call_params := None;
              call_json := None;
              call_files := NoFiles;
              call_headers := None;
              call_stream := true |} ->
    400 <= status_code (response_to P tr call) ->
    (json_loads P (resp_text (response_to P tr call)) = None ->
     download_document P self dataset_id document_id tr =
     (Raise (mk_exn APIError
               (ArgText [Lit "Failed to download document: ";
                         Lit (resp_text (response_to P tr call))])),
      tr ++ [EHttp call]))
    /\ (forall fields,
           json_loads P (resp_text (response_to P tr call)) =
           Some (JObject fields) ->
           download_document P self dataset_id document_id tr =
           (Raise (mk_exn APIError
                     (ArgText [Lit "Failed to download document: ";
                               py_str (Dict.get "message"
                                         (JString "Unknown error") fields)])),
            tr ++ [EHttp call])).
Proof.
  intros P self dataset_id document_id tr call -> Hstatus.
  apply Z.leb_le in Hstatus.
  split.
  - intros Hbody. unfold download_document, bind, send, lift, ret, raise.
    rewrite Hstatus. cbv beta iota zeta. now rewrite Hbody.
  - intros fields Hbody.
    unfold download_document, bind, send, lift, ret, raise.
    rewrite Hstatus. cbv beta iota zeta. now rewrite Hbody.
Qed.

Lemma download_error_writes_nothing_witness :
  exists call,
    download_document Scenario.html_not_found Demo.client "ds1" "d1" [] =
    (Raise (mk_exn APIError
              (ArgText [Lit "Failed to download document: ";
                        Lit "<html>not found</html>"])),
     [EHttp call]).
Proof.
  eexists.
  apply (proj1 (download_error_writes_nothing Scenario.html_not_found
                  Demo.client "ds1" "d1" [] _ eq_refl
                  ltac:(vm_compute; discriminate))).
  reflexivity.
Defined.

(** ** Listing datasets *)

Lemma map_outcome_construct {A : Type} (validate : dict -> option A)
    (wrap : A -> pyvalue) (items : list json) (values : list pyvalue) :
  map_outcome (construct validate wrap) items = Ok values ->
  exists xs,
    values = map wrap xs
    /\ Forall2 (fun item x => exists fields,
                    item = JObject fields /\ validate fields = Some x)
               items xs.
Proof.
  revert values. induction items as [|item items IH]; intros values; simpl.
  - intros H. inversion H. exists []. split; [reflexivity | constructor].
  - unfold construct at 1.
    destruct item as [| | | | | |fields]; simpl; try discriminate.
    destruct (validate fields) as [x|] eqn:Hx; simpl; [| discriminate].
    destruct (map_outcome (construct validate wrap) items) as [ys|e];
      simpl; [| discriminate].
    intros H. inversion H; subst values.
    destruct (IH ys eq_refl) as (xs & -> & Hall).
    exists (x :: xs). split; [reflexivity |].
    constructor; [now exists fields | assumption].
Qed.

(** X12: when [list_datasets] returns, it returns one [Dataset] for each
    item of the unwrapped response, in the same order, each item being a
    mapping that the model accepted: one item that is not accepted makes the
    whole call fail, and no partial list is returned. *)
Theorem list_datasets_all_or_nothing :
  forall (P : platform) (self : RagFlowClient) (page page_size : Z)
         (orderby : string) (desc : bool) (name dataset_id : option string)
         (tr tr' : trace) (v : pyvalue),
    list_datasets P self page page_size orderby desc name dataset_id tr =
    (Ok v, tr') ->
    exists data unwrapped items datasets,
      interpret P
        (response_to P tr
           (request_call P self "GET" "/api/v1/datasets"
              (Some (list_datasets_params page page_size orderby desc name
                       dataset_id)) None None false)) = Ok data
      /\ handle_response data = Ok unwrapped
      /\ py_iter unwrapped = Ok items
      /\ v = PList (map PDataset datasets)
      /\ length datasets = length items
      /\ Forall2 (fun item d => exists fields,
                      item = JObject fields
                      /\ validate_Dataset P fields = Some d)
                 items datasets.
Proof.
  intros P self page page_size orderby desc name dataset_id tr tr' v.
  unfold list_datasets. rewrite run_via_request.
  destruct (interpret P _) as [data|e] eqn:Hdata; [| discriminate].
  simpl.
  destruct (handle_response data) as [unwrapped|e] eqn:Hunwrap;
    [| discriminate].
  simpl. destruct (py_iter unwrapped) as [items|e] eqn:Hitems;
    [| discriminate].
  simpl.
  destruct (map_outcome _ items) as [values|e] eqn:Hmap; [| discriminate].
  simpl. intros H. inversion H; subst v tr'.
  destruct (map_outcome_construct _ _ _ _ Hmap) as (datasets & -> & Hall).
  exists data, unwrapped, items, datasets.
  split; [reflexivity |]. split; [exact Hunwrap |]. split; [exact Hitems |].
  split; [reflexivity |]. split; [| exact Hall].
  symmetry. eapply Forall2_length. exact Hall.
Qed.

Lemma list_datasets_all_or_nothing_witness :
  exists data unwrapped items datasets,
    interpret (Cases.found [])
      (response_to (Cases.found []) []
         (request_call (Cases.found []) Demo.client "GET" "/api/v1/datasets"
            (Some (list_datasets_params 1 30 "create_time" true
                     (Some "kb"%string) None)) None None false)) = Ok data
    /\ handle_response data = Ok unwrapped
    /\ py_iter unwrapped = Ok items
    /\ fst (list_datasets (Cases.found []) Demo.client 1 30 "create_time" true
              (Some "kb"%string) None []) = Ok (PList (map PDataset datasets))
    /\ length datasets = length items
    /\ Forall2 (fun item d => exists fields,
                    item = JObject fields
                    /\ validate_Dataset (Cases.found []) fields = Some d)
               items datasets.
Proof.
  destruct (list_datasets_all_or_nothing
              (Cases.found []) Demo.client 1 30 "create_time" true
              (Some "kb"%string) None []
              (snd (list_datasets (Cases.found []) Demo.client 1 30
                      "create_time" true (Some "kb"%string) None []))
              (PList (match Demo.accept_Dataset
                              (match JsonText.loads Cases.dataset_text with
                               | Some (JObject f) => f
                               | _ => []
                               end) with
                      | Some d => [PDataset d]
                      | None => []
                      end))
              ltac:(vm_compute; reflexivity))
    as (data & unwrapped & items & datasets & H1 & H2 & H3 & H4 & H5 & H6).
  exists data, unwrapped, items, datasets.
  repeat split; try assumption.
  rewrite <- H4. vm_compute. reflexivity.
Defined.

(** ** Request bodies *)

(** X13: the body of [retrieve_chunks] always holds the question and the
    numeric and boolean settings, holds [dataset_ids], [document_ids] and
    [rerank_id] exactly when the caller gave them, and holds no [null]. *)
Theorem retrieve_chunks_body_fields :
  forall question dataset_ids document_ids page page_size st vw top_k
         rerank_id keyword highlight,
    let body := retrieve_chunks_body question dataset_ids document_ids page
                  page_size st vw top_k rerank_id keyword highlight in
    Dict.lookup "question" body = Some (JString question)
    /\ Dict.lookup "page" body = Some (JInt page)
    /\ Dict.lookup "page_size" body = Some (JInt page_size)
    /\ Dict.lookup "top_k" body = Some (JInt top_k)
    /\ Dict.lookup "keyword" body = Some (JBool keyword)
    /\ Dict.lookup "highlight" body = Some (JBool highlight)
    /\ Dict.lookup "dataset_ids" body =
       option_map (fun l => JArray (map JString l)) dataset_ids
    /\ Dict.lookup "document_ids" body =
       option_map (fun l => JArray (map JString l)) document_ids
    /\ Dict.lookup "rerank_id" body = option_map JString rerank_id
    /\ (forall key, Dict.lookup key body <> Some JNull).
Proof.
  intros. subst body.
  repeat split;
    try (destruct dataset_ids, document_ids, rerank_id; reflexivity).
  intros key. apply drop_none_lookup.
Qed.

Lemma truthy_nonempty (s : string) :
  opt_truthy (Some s) = negb (Str.is_empty s).
Proof. destruct s; reflexivity. Qed.

(** X14: [update_dataset] and [update_chunk] treat a value that is set but
    empty differently: the body of [update_dataset] holds a field exactly
    when its argument is a non-empty string, so an empty string is dropped
    like [None]; the body of [update_chunk] holds a field whenever its
    argument is not [None], so a count of 0 and an empty delimiter are
    sent. *)
Theorem update_bodies_on_empty_values :
  (forall name embedding_model chunk_method,
      let body := update_dataset_body name embedding_model chunk_method in
      Dict.lookup "name" body =
        (if opt_truthy name then option_map JString name else None)
      /\ Dict.lookup "embedding_model" body =
           (if opt_truthy embedding_model
            then option_map JString embedding_model else None)
      /\ Dict.lookup "chunk_method" body =
           (if opt_truthy chunk_method
            then option_map JString chunk_method else None))
  /\ (forall chunk_token_count delimiter,
         let body := update_chunk_body chunk_token_count delimiter in
         Dict.lookup "chunk_token_count" body =
           option_map JInt chunk_token_count
         /\ Dict.lookup "delimiter" body = option_map JString delimiter).
Proof.
  split.
  - intros name em cm body. subst body.
    unfold update_dataset_body, set_if_truthy.
    destruct name as [[|a s]|], em as [[|b t]|], cm as [[|c u]|];
      repeat split; reflexivity.
  - intros n d body. subst body. unfold update_chunk_body.
    destruct n, d; split; reflexivity.
Qed.

(** * Further properties of the batch script *)

(** ** The scan of the directory *)

(** X15: the scan keeps exactly the names of [os.listdir] that are regular
    files with a supported extension (compared in lower case), joined to the
    directory and in the order of the listing, after what was kept before;
    it never fails, and all it does besides is print. *)
Theorem scan_selects_supported_files :
  forall (P : platform) (doc_dir : string) (filenames file_paths : list string)
         (tr : trace),
  exists prints,
    scan P doc_dir filenames file_paths tr =
    (Ok (file_paths
         ++ map (path_join P doc_dir) (filter (selected P doc_dir) filenames)),
     tr ++ map EPrint prints)
    /\ (length prints <= length filenames)%nat.
Proof.
  intros P doc_dir filenames.
  induction filenames as [|filename rest IH]; intros file_paths tr.
  - exists []. simpl. unfold ret. now rewrite !app_nil_r.
  - simpl. unfold selected at 1.
    destruct (path_isfile P (path_join P doc_dir filename)); simpl.
    + destruct (supported _); simpl.
      * destruct (IH (file_paths ++ [path_join P doc_dir filename]) tr)
          as (prints & Hrun & Hlen).
        exists prints. rewrite Hrun, <- app_assoc. split; [reflexivity | lia].
      * unfold bind, print, emit.
        destruct (IH file_paths (tr ++ [EPrint [Lit "[WARN] 跳过不支持的文件类型: ";
                                               Lit filename]]))
          as (prints & Hrun & Hlen).
        rewrite Hrun.
        exists ([Lit "[WARN] 跳过不支持的文件类型: "; Lit filename] :: prints).
        rewrite <- app_assoc. split; [reflexivity | simpl; lia].
    + destruct (IH file_paths tr) as (prints & Hrun & Hlen).
      exists prints. rewrite Hrun. split; [reflexivity | lia].
Qed.

(** the seven extensions of [SUPPORTED_FILE_TYPES] *)
Lemma supported_extensions (ext : string) :
  supported ext = true <->
  In ext [".doc"; ".docx"; ".pdf"; ".xls"; ".xlsx"; ".md"; ".txt"]%string.
Proof.
  unfold supported. simpl. split.
  - intros H.
    repeat match type of H with
           | (_ || _)%bool = true =>
               apply orb_true_iff in H; destruct H as [H | H]
           end;
      try discriminate H; apply String.eqb_eq in H; subst; simpl; tauto.
  - intros H.
    repeat (destruct H as [H | H]; [subst; reflexivity |]). destruct H.
Qed.

(** ** Before the scan *)

Lemma calls_of_prints (tr : trace) (prints : list text) :
  calls_of (tr ++ map EPrint prints) = calls_of tr.
Proof.
  rewrite calls_of_app.
  assert (H : calls_of (map EPrint prints) = []) by (induction prints; auto).
  now rewrite H, app_nil_r.
Qed.

(** the script up to the scan, when a client can be built and the lookup
    finds a dataset *)
Lemma script_reaches_scan (P : platform) (dataset_name doc_dir : string)
    (tr : trace) (client : RagFlowClient) (dataset : models.Dataset)
    (others : list pyvalue) :
  RagFlowClient_init P None None = Ok client ->
  fst (list_datasets P client 1 30 "create_time" true (Some dataset_name)
         None tr) = Ok (PList (PDataset dataset :: others)) ->
  upload_and_parse_documents P dataset_name doc_dir tr =
  guarded
    (fun tr0 =>
       scan_upload_parse P client (models.ds_id dataset) doc_dir
         (tr0 ++ [EPrint [Lit "[INFO] 客户端初始化成功"];
                  EPrint [Lit "[INFO] 查找/创建数据集: "; Lit dataset_name];
                  EHttp (request_call P client "GET" "/api/v1/datasets"
                           (Some (list_datasets_params 1 30 "create_time" true
                                    (Some dataset_name) None))
                           None None false);
                  EPrint [Lit "[INFO] 找到现有数据集，ID: ";
                          Lit (models.ds_id dataset)]]))
    tr.
Proof.
  intros Hinit Hfound.
  unfold upload_and_parse_documents, guarded, try_except, bind,
    resolve_dataset, bind, print, emit, lift, ret.
  rewrite Hinit.
  rewrite (list_datasets_run P client 1 30 "create_time" true
             (Some dataset_name) None _ tr).
  - rewrite Hfound. simpl. repeat rewrite <- app_assoc. reflexivity.
  - repeat rewrite calls_of_app. simpl. now rewrite !app_nil_r.
Qed.

(** X16: without an API key in the arguments or in the environment, the
    script makes no HTTP call at all: it ends with [AuthenticationError],
    which the second [except] clause reports as an unknown error. *)
Theorem script_without_key_makes_no_call :
  forall (P : platform) (dataset_name doc_dir : string) (tr : trace),
    opt_truthy (getenv P "RAGFLOW_API_KEY") = false ->
    upload_and_parse_documents P dataset_name doc_dir tr =
    (Raise (mk_exn AuthenticationError (ArgText [Lit "API key is required"])),
     tr ++ [EPrint [Lit "[ERROR] 发生未知异常: "; Lit "API key is required"]]).
Proof.
  intros P dataset_name doc_dir tr Henv.
  assert (Hinit : RagFlowClient_init P None None =
                  Raise (mk_exn AuthenticationError
                           (ArgText [Lit "API key is required"]))).
  { unfold RagFlowClient_init. simpl.
    destruct (getenv P "RAGFLOW_API_KEY") as [k|]; [| reflexivity].
    now rewrite Henv. }
  unfold upload_and_parse_documents, try_except, bind, lift.
  rewrite Hinit. reflexivity.
Qed.

Lemma script_without_key_makes_no_call_witness :
  upload_and_parse_documents Cases.no_key "kb" "docs" [] =
  (Raise (mk_exn AuthenticationError (ArgText [Lit "API key is required"])),
   [EPrint [Lit "[ERROR] 发生未知异常: "; Lit "API key is required"]]).
Proof.
  apply (script_without_key_makes_no_call Cases.no_key "kb" "docs" []).
  reflexivity.
Defined.

(** X17: once the dataset is found, a document directory that does not
    exist ends the run with [FileNotFoundError], and a path that exists but
    is not a directory with [NotADirectoryError]; in both cases the lookup is
    the only call made and the directory is not listed. *)
Theorem script_rejects_bad_directory :
  forall (P : platform) (dataset_name doc_dir : string) (tr : trace)
         (client : RagFlowClient) (dataset : models.Dataset)
         (others : list pyvalue),
    RagFlowClient_init P None None = Ok client ->
    fst (list_datasets P client 1 30 "create_time" true (Some dataset_name)
           None tr) = Ok (PList (PDataset dataset :: others)) ->
    (path_exists P doc_dir = false ->
     upload_and_parse_documents P dataset_name doc_dir tr =
     (Raise (mk_exn FileNotFoundError
               (ArgText [Lit "文档目录不存在: "; Lit doc_dir])),
      tr ++ [EPrint [Lit "[INFO] 客户端初始化成功"];
             EPrint [Lit "[INFO] 查找/创建数据集: "; Lit dataset_name];
             EHttp (request_call P client "GET" "/api/v1/datasets"
                      (Some (list_datasets_params 1 30 "create_time" true
                               (Some dataset_name) None))
                      None None false);
             EPrint [Lit "[INFO] 找到现有数据集，ID: ";
                     Lit (models.ds_id dataset)];
             EPrint [Lit "[INFO] 扫描目录: "; Lit doc_dir];
             EPrint [Lit "[ERROR] 执行过程中发生异常: ";
                     Lit "文档目录不存在: "; Lit doc_dir]]))
    /\ (path_exists P doc_dir = true -> path_isdir P doc_dir = false ->
        upload_and_parse_documents P dataset_name doc_dir tr =
        (Raise (mk_exn NotADirectoryError
                  (ArgText [Lit "路径不是目录: "; Lit doc_dir])),
         tr ++ [EPrint [Lit "[INFO] 客户端初始化成功"];
                EPrint [Lit "[INFO] 查找/创建数据集: "; Lit dataset_name];
                EHttp (request_call P client "GET" "/api/v1/datasets"
                         (Some (list_datasets_params 1 30 "create_time" true
                                  (Some dataset_name) None))
                         None None false);
                EPrint [Lit "[INFO] 找到现有数据集，ID: ";
                        Lit (models.ds_id dataset)];
                EPrint [Lit "[INFO] 扫描目录: "; Lit doc_dir];
                EPrint [Lit "[ERROR] 执行过程中发生异常: ";
                        Lit "路径不是目录: "; Lit doc_dir]])).
Proof.
  intros P dataset_name doc_dir tr client dataset others Hinit Hfound.
  rewrite (script_reaches_scan P dataset_name doc_dir tr client dataset others
             Hinit Hfound).
  unfold guarded, try_except, scan_upload_parse, bind, print, emit, raise.
  split.
  - intros Hexists. rewrite Hexists. simpl.
    repeat rewrite <- app_assoc. reflexivity.
  - intros Hexists Hdir. rewrite Hexists, Hdir. simpl.
    repeat rewrite <- app_assoc. reflexivity.
Qed.

Lemma script_rejects_bad_directory_witness :
  fst (upload_and_parse_documents (Cases.found ["a.pdf"%string]) "kb"
         "nowhere" []) =
  Raise (mk_exn FileNotFoundError
           (ArgText [Lit "文档目录不存在: "; Lit "nowhere"]))
  /\ fst (upload_and_parse_documents (Cases.found ["a.pdf"%string]) "kb"
            "docs/a.pdf" []) =
     Raise (mk_exn NotADirectoryError
              (ArgText [Lit "路径不是目录: "; Lit "docs/a.pdf"])).
Proof.
  split.
  - rewrite (proj1 (script_rejects_bad_directory
                      (Cases.found ["a.pdf"%string]) "kb" "nowhere" []
                      (mk_client "secret" "http://120.224.107.249:22280"
                         [("Authorization", "Bearer secret"%string);
                          ("Content-Type", "application/json"%string)])
                      (match Demo.accept_Dataset
                               (match JsonText.loads Cases.dataset_text with
                                | Some (JObject f) => f
                                | _ => []
                                end) with
                       | Some d => d
                       | None => models.mk_Dataset "" "" None None "" "" []
                                   "" "" "" 0 0 0 ""
                       end)
                      []
                      eq_refl
                      ltac:(vm_compute; reflexivity))
                   eq_refl).
    reflexivity.
  - rewrite (proj2 (script_rejects_bad_directory
                      (Cases.found ["a.pdf"%string]) "kb" "docs/a.pdf" []
                      (mk_client "secret" "http://120.224.107.249:22280"
                         [("Authorization", "Bearer secret"%string);
                          ("Content-Type", "application/json"%string)])
                      (match Demo.accept_Dataset
                               (match JsonText.loads Cases.dataset_text with
                                | Some (JObject f) => f
                                | _ => []
                                end) with
                       | Some d => d
                       | None => models.mk_Dataset "" "" None None "" "" []
                                   "" "" "" 0 0 0 ""
                       end)
                      []
                      eq_refl
                      ltac:(vm_compute; reflexivity))
                   ltac:(vm_compute; reflexivity)
                   ltac:(vm_compute; reflexivity)).
    reflexivity.
Defined.

(** X18: when the directory holds no regular file with a supported
    extension, the script lists it once and returns normally: the lookup is
    the only call, so nothing is uploaded and no parse is asked for. *)
Theorem script_with_nothing_to_upload :
  forall (P : platform) (dataset_name doc_dir : string) (tr : trace)
         (client : RagFlowClient) (dataset : models.Dataset)
         (others : list pyvalue),
    RagFlowClient_init P None None = Ok client ->
    fst (list_datasets P client 1 30 "create_time" true (Some dataset_name)
           None tr) = Ok (PList (PDataset dataset :: others)) ->
    path_exists P doc_dir = true ->
    path_isdir P doc_dir = true ->
    filter (selected P doc_dir) (listdir P doc_dir) = [] ->
    fst (upload_and_parse_documents P dataset_name doc_dir tr) = Ok tt
    /\ calls_of (snd (upload_and_parse_documents P dataset_name doc_dir tr)) =
       calls_of tr
       ++ [request_call P client "GET" "/api/v1/datasets"
             (Some (list_datasets_params 1 30 "create_time" true
                      (Some dataset_name) None))
             None None false]
    /\ In (EListDir doc_dir)
          (snd (upload_and_parse_documents P dataset_name doc_dir tr)).
Proof.
  intros P dataset_name doc_dir tr client dataset others Hinit Hfound
         Hexists Hdir Hnone.
  rewrite (script_reaches_scan P dataset_name doc_dir tr client dataset others
             Hinit Hfound).
  unfold guarded, try_except, scan_upload_parse, bind, print, emit.
  rewrite Hexists, Hdir. simpl.
  match goal with
  | |- context [scan P ?d ?l ?a ?t] =>
      destruct (scan_selects_supported_files P d l a t)
        as (prints & Hrun & _)
  end.
  rewrite Hrun, Hnone. simpl.
  repeat split.
  - rewrite calls_of_app. simpl. rewrite calls_of_prints.
    repeat rewrite calls_of_app. simpl. now rewrite !app_nil_r.
  - apply in_or_app. left. apply in_or_app. left.
    apply in_or_app. right. simpl. auto.
Qed.

Lemma script_with_nothing_to_upload_witness :
  fst (upload_and_parse_documents (Cases.found ["b.exe"%string]) "kb" "docs"
         []) = Ok tt
  /\ length (calls_of (snd (upload_and_parse_documents
                              (Cases.found ["b.exe"%string]) "kb" "docs" [])))
     = 1%nat.
Proof.
  destruct (script_with_nothing_to_upload
              (Cases.found ["b.exe"%string]) "kb" "docs" []
              (mk_client "secret" "http://120.224.107.249:22280"
                 [("Authorization", "Bearer secret"%string);
                  ("Content-Type", "application/json"%string)])
              (match Demo.accept_Dataset
                       (match JsonText.loads Cases.dataset_text with
                        | Some (JObject f) => f
                        | _ => []
                        end) with
               | Some d => d
               | None => models.mk_Dataset "" "" None None "" "" []
                           "" "" "" 0 0 0 ""
               end)
              []
              eq_refl
              ltac:(vm_compute; reflexivity)
              ltac:(vm_compute; reflexivity)
              ltac:(vm_compute; reflexivity)
              ltac:(vm_compute; reflexivity))
    as (Hok & Hcalls & _).
  split; [exact Hok |]. rewrite Hcalls. reflexivity.
Defined.

(** ** The upload loop *)

Lemma open_balance_app (a b : trace) :
  open_balance (a ++ b) = open_balance a + open_balance b.
Proof.
  induction a as [|ev a IH]; [reflexivity |].
  destruct ev; cbn [app open_balance]; rewrite IH; lia.
Qed.

Lemma upload_all_step (P : platform) (client : RagFlowClient)
    (dataset_id : string) (file_path : string) (rest : list string)
    (uploaded : list json) :
  upload_all P client dataset_id (file_path :: rest) uploaded =
  bind (upload_one P client dataset_id uploaded file_path)
       (fun ids => upload_all P client dataset_id rest ids).
Proof. reflexivity. Qed.

(** one round opens the file, makes the one upload call for it, and closes
    the file, whatever the outcome *)
Lemma upload_one_run (P : platform) (client : RagFlowClient)
    (dataset_id : string) (uploaded : list json) (file_path : string)
    (tr : trace) :
  exists new,
    snd (upload_one P client dataset_id uploaded file_path tr) = tr ++ new
    /\ calls_of new = [upload_call P client dataset_id [file_path]]
    /\ open_balance new = 0
    /\ (forall ids,
           fst (upload_one P client dataset_id uploaded file_path tr) = Ok ids ->
           ids = uploaded \/ exists id, ids = uploaded ++ [id]).
Proof.
  unfold upload_one, with_open, bind, print, emit.
  match goal with
  | |- context [upload_documents P client dataset_id ?fs ?t] =>
      destruct (upload_run P client dataset_id fs t)
        as (t1 & t2 & t3 & t4 & Hrun)
  end.
  rewrite Hrun. clear Hrun.
  destruct (json_loads P _) as [data|].
  - destruct (Z.leb 400 _).
    + destruct (py_get data "message" _); simpl;
        repeat rewrite <- app_assoc; simpl;
        (eexists; split; [reflexivity |]; repeat split; discriminate).
    + destruct (py_get data "data" (JArray [])) as [docs|e]; simpl.
      * unfold lift. simpl. destruct (py_truthy docs).
        -- destruct (py_first docs) as [first|e]; simpl;
             [destruct (py_get first "id" JNull) as [id|e]; simpl |];
             repeat rewrite <- app_assoc; simpl;
             (eexists; split; [reflexivity |]; repeat split;
              try discriminate).
           intros ids H. inversion H. right. now exists id.
        -- simpl. repeat rewrite <- app_assoc. simpl.
           eexists. split; [reflexivity |]. repeat split.
           intros ids H. inversion H. now left.
      * repeat rewrite <- app_assoc. simpl.
        eexists. split; [reflexivity |]. repeat split. discriminate.
  - simpl. repeat rewrite <- app_assoc. simpl.
    eexists. split; [reflexivity |]. repeat split. discriminate.
Qed.

Lemma upload_all_run (P : platform) (client : RagFlowClient)
    (dataset_id : string) (file_paths : list string) :
  forall (uploaded : list json) (tr : trace),
  exists new n,
    snd (upload_all P client dataset_id file_paths uploaded tr) = tr ++ new
    /\ (n <= length file_paths)%nat
    /\ calls_of new =
       map (fun path => upload_call P client dataset_id [path])
           (firstn n file_paths)
    /\ open_balance new = 0
    /\ (forall ids,
           fst (upload_all P client dataset_id file_paths uploaded tr) = Ok ids ->
           n = length file_paths
           /\ (length ids <= length uploaded + length file_paths)%nat).
Proof.
  induction file_paths as [|file_path rest IH]; intros uploaded tr.
  - exists [], 0%nat. simpl. unfold ret. simpl. rewrite app_nil_r.
    repeat split; auto. inversion H. lia.
  - rewrite upload_all_step. unfold bind.
    destruct (upload_one_run P client dataset_id uploaded file_path tr)
      as (new1 & Htrace & Hcalls & Hbalance & Hids).
    destruct (upload_one P client dataset_id uploaded file_path tr)
      as [[ids|e] tr1]; simpl in Htrace; subst tr1.
    + destruct (IH ids (tr ++ new1))
        as (new2 & n & Htrace2 & Hn & Hcalls2 & Hbalance2 & Hok).
      exists (new1 ++ new2), (S n).
      rewrite Htrace2, app_assoc. split; [reflexivity |].
      split; [simpl; lia |].
      split; [rewrite calls_of_app, Hcalls, Hcalls2; reflexivity |].
      split; [rewrite open_balance_app; lia |].
      intros ids' Hrun. destruct (Hok ids' Hrun) as [-> Hlen].
      split; [reflexivity |].
      destruct (Hids ids eq_refl) as [-> | [id ->]]; simpl;
        [lia | rewrite length_app in Hlen; simpl in Hlen; lia].
    + exists new1, 1%nat. simpl.
      split; [reflexivity |]. split; [lia |].
      split; [exact Hcalls |]. split; [exact Hbalance |].
      discriminate.
Qed.

(** X19: the upload loop makes one upload call per file, each carrying that
    one file, in the order of the list; it stops at the first exception, so
    the calls made are those of a prefix of the list, and of the whole list
    when the loop ends normally, in which case at most one document id per
    file has been collected. *)
Theorem upload_loop_one_call_per_file :
  forall (P : platform) (client : RagFlowClient) (dataset_id : string)
         (file_paths : list string) (uploaded : list json) (tr : trace),
  exists n,
    (n <= length file_paths)%nat
    /\ calls_of (snd (upload_all P client dataset_id file_paths uploaded tr)) =
       calls_of tr
       ++ map (fun path => upload_call P client dataset_id [path])
              (firstn n file_paths)
    /\ (forall ids,
           fst (upload_all P client dataset_id file_paths uploaded tr) = Ok ids ->
           n = length file_paths
           /\ (length ids <= length uploaded + length file_paths)%nat).
Proof.
  intros P client dataset_id file_paths uploaded tr.
  destruct (upload_all_run P client dataset_id file_paths uploaded tr)
    as (new & n & Htrace & Hn & Hcalls & _ & Hok).
  exists n. split; [exact Hn |]. split; [| exact Hok].
  now rewrite Htrace, calls_of_app, Hcalls.
Qed.

(** X20: the upload loop closes every file it opens, also when an upload
    or the reading of its result raises: after the loop, as many files have
    been closed as opened. *)
Theorem upload_loop_closes_files :
  forall (P : platform) (client : RagFlowClient) (dataset_id : string)
         (file_paths : list string) (uploaded : list json) (tr : trace),
    open_balance (snd (upload_all P client dataset_id file_paths uploaded tr))
    = open_balance tr.
Proof.
  intros P client dataset_id file_paths uploaded tr.
  destruct (upload_all_run P client dataset_id file_paths uploaded tr)
    as (new & n & Htrace & _ & _ & Hbalance & _).
  rewrite Htrace, open_balance_app. lia.
Qed.


(** * What the methods return *)

Lemma construct_ok {A : Type} (validate : dict -> option A)
    (wrap : A -> pyvalue) (j : json) (v : pyvalue) :
  construct validate wrap j = Ok v -> exists x, v = wrap x.
Proof.
  unfold construct. destruct j; try discriminate.
  destruct (validate fields) as [x|]; [| discriminate].
  intros H. inversion H. now exists x.
Qed.

Lemma all_datasets (datasets : list models.Dataset) :
  forallb (fun x => match x with PDataset _ => true | _ => false end)
          (map PDataset datasets) = true.
Proof. induction datasets; simpl; auto. Qed.

(** X21: the kind of value a method returns when it does not raise:
    [create_dataset] a [Dataset], [list_datasets] a list of [Dataset]s,
    [get_chunk] a [Chunk], the non-streaming chat completion a
    [ChatCompletionResponse] or [None], the streaming one a list of decoded
    chunks; [upload_documents], [list_chunks], [retrieve_chunks] and
    [parse_documents] plain decoded JSON; the other methods [None].  No
    method returns a [Document]. *)
Theorem methods_return_their_kind :
  forall (P : platform) (self : RagFlowClient) (c : facade_call) (tr : trace)
         (v : pyvalue),
    fst (run_call P self c tr) = Ok v -> result_kind c v = true.
Proof.
  intros P self c tr v.
  destruct c; simpl run_call;
    unfold create_dataset, list_datasets, delete_datasets, update_dataset,
      update_document, list_chunks, retrieve_chunks, get_chunk, update_chunk,
      delete_chunk, parse_documents;
    try (first [rewrite run_via_request | rewrite run_via_request_none];
         simpl fst; destruct (interpret P _) as [data|e];
         [| discriminate]; simpl).
  - (* create_chat_completion *)
    destruct stream.
    + destruct (streaming_completion_never_raises P self chat_id messages
                  model tr) as (call & chunks & Hrun & _).
      rewrite Hrun. simpl. intros H. now inversion H.
    + unfold create_chat_completion, bind, try_except, lift, ret, print, emit.
      rewrite request_run.
      destruct (interpret P _) as [data|e]; simpl; [| discriminate].
      destruct (handle_response data) as [parsed|e]; simpl.
      * intros H. apply construct_ok in H. destruct H as [r ->]. reflexivity.
      * destruct (exn_kind e); simpl; try discriminate.
        intros H. now inversion H.
  - (* create_dataset *)
    destruct (handle_response data); simpl; [| discriminate].
    intros H. apply construct_ok in H. destruct H as [d ->]. reflexivity.
  - (* list_datasets *)
    destruct (handle_response data); simpl; [| discriminate].
    destruct (py_iter a) as [items|]; simpl; [| discriminate].
    destruct (map_outcome _ items) as [values|] eqn:Hmap; simpl;
      [| discriminate].
    intros H. inversion H.
    destruct (map_outcome_construct _ _ _ _ Hmap) as (ds & -> & _).
    apply all_datasets.
  - intros H. now inversion H.
  - intros H. now inversion H.
  - (* upload_documents *)
    destruct (upload_run P self dataset_id files tr)
      as (t1 & t2 & t3 & t4 & Hrun).
    rewrite Hrun. simpl fst.
    destruct (json_loads P _) as [data|]; [| discriminate].
    destruct (Z.leb 400 _).
    + destruct (py_get data "message" _); discriminate.
    + destruct (py_get data "data" _); [| discriminate].
      intros H. now inversion H.
  - intros H. now inversion H.
  - (* download_document *)
    unfold download_document, bind, send.
    destruct (Z.leb 400 _).
    + destruct (json_loads P _) as [data|]; unfold lift, ret, raise;
        [destruct (py_get data "message" _) |]; simpl; discriminate.
    + rewrite for_each_write. unfold ret. simpl. intros H. now inversion H.
  - intros H. now inversion H.
  - destruct (handle_response data); simpl; [| discriminate].
    intros H. now inversion H.
  - destruct (handle_response data); simpl; [| discriminate].
    intros H. apply construct_ok in H. destruct H as [d ->]. reflexivity.
  - intros H. now inversion H.
  - intros H. now inversion H.
  - destruct (handle_response data); simpl; [| discriminate].
    intros H. now inversion H.
Qed.

Lemma methods_return_their_kind_witness :
  result_kind (UploadDocuments "ds1" ["docs/a.pdf"%string])
    (PJson (JArray [JObject [("id", JString "d1")]])) = true.
Proof.
  apply (methods_return_their_kind Scenario.accepting Demo.client
           (UploadDocuments "ds1" ["docs/a.pdf"%string]) []).
  vm_compute. reflexivity.
Defined.


(** * Further properties of the transport *)

Lemma lstrip_only_chars (chars s : string) :
  only_chars chars s = true -> Str.lstrip chars s = EmptyString.
Proof.
  induction s as [|c rest IH]; simpl; [reflexivity |].
  destruct (Str.mem_char c chars); simpl; [exact IH | discriminate].
Qed.

(** X22: a line of the stream that holds nothing but characters of the
    prefix -- [data: ] alone, [data:], a run of spaces -- gives no chunk, and
    the JSON decoder is not even asked: the result is the same for every
    decoder. *)
Theorem prefix_only_line_is_skipped :
  forall (P : platform) (line : string),
    only_chars "data: " line = true ->
    chunk_of_line P line = None.
Proof.
  intros P line Hline. unfold chunk_of_line.
  destruct (Str.is_empty line); [reflexivity |].
  now rewrite (lstrip_only_chars "data: " line Hline).
Qed.

Lemma prefix_only_line_is_skipped_witness :
  chunk_of_line (Scenario.streaming []) "data: "%string = None.
Proof.
  apply (prefix_only_line_is_skipped (Scenario.streaming []) "data: "%string).
  reflexivity.
Defined.


